(** * popmon: the histogram splitter ([popmon/hist/hist_splitter.py])

    A shallow embedding of [HistSplitter] and of the Python and pandas
    operations its [transform] relies on, followed by the properties of
    the splitter.

    Conventions.
    - A Python [dict] is an insertion-ordered association list ([Dict]).
    - Python objects that end up in the datastore live in one universe
      [Obj]: the code is duck-typed and nothing stops a mapping of tables
      from being read back as a mapping of histograms.
    - Logging and the call to the projection are recorded in a trace of
      [Event]s; exceptions are the left summand of the outcome, and a run
      that raises has not written the store.
    - [HistogramContainer], [Module.get_features] and pandas' treatment of
      an input that is not a list of dictionaries are imported by the
      module and not defined in it: they are the fields of
      [Collaborators], taken as functions, and every theorem of the
      splitter holds for all of them. *)

From Stdlib Require Import ZArith List String Ascii Bool Lia Permutation.
Import ListNotations.
Local Open Scope list_scope.

Set Implicit Arguments.
Local Set Warnings "-register-all".

(* ================================================================= *)
(** ** Insertion-ordered dictionaries *)

Module Dict.
Section Defs.
Context {K V : Type}.
Variable K_eq_dec : forall a b : K, {a = b} + {a <> b}.

Definition t := list (K * V).

Definition keys (d : t) : list K := map fst d.

(** [d.get(k)] *)
Fixpoint get (k : K) (d : t) : option V :=
  match d with
  | [] => None
  | (k', v) :: r => if K_eq_dec k k' then Some v else get k r
  end.

(** [k in d] *)
Definition mem (k : K) (d : t) : bool :=
  match get k d with Some _ => true | None => false end.

(** [d[k] = v]: an existing key keeps its position, a new key goes last. *)
Fixpoint set (k : K) (v : V) (d : t) : t :=
  match d with
  | [] => [(k, v)]
  | (k', v') :: r =>
      if K_eq_dec k k' then (k', v) :: r else (k', v') :: set k v r
  end.

(** [d.pop(k)]: the value and the remaining dictionary, [None] for the
    [KeyError]. *)
Fixpoint pop (k : K) (d : t) : option (V * t) :=
  match d with
  | [] => None
  | (k', v) :: r =>
      if K_eq_dec k k' then Some (v, r)
      else match pop k r with
           | Some (w, r') => Some (w, (k', v) :: r')
           | None => None
           end
  end.

(** [d.update(src)]: assignments in the order of [src]. *)
Definition update (d src : t) : t :=
  fold_left (fun acc kv => set (fst kv) (snd kv) acc) src d.
End Defs.
End Dict.

(* ================================================================= *)
(** ** Strings: [str.split(":")] and [":".join] *)

Definition colon : ascii := ":"%char.

(** [s.split(":")]; the result always has at least one token. *)
Fixpoint split_colon (s : string) : list string :=
  match s with
  | EmptyString => [EmptyString]
  | String c rest =>
      if Ascii.eqb c colon then EmptyString :: split_colon rest
      else match split_colon rest with
           | tok :: toks => String c tok :: toks
           | [] => [String c EmptyString]
           end
  end.

(** [":".join(l)] *)
Fixpoint join_colon (l : list string) : string :=
  match l with
  | [] => EmptyString
  | [tok] => tok
  | tok :: toks => (tok ++ String colon (join_colon toks))%string
  end.

(* ================================================================= *)
(** ** Objects *)

(** Hashable scalars: dictionary keys, bin labels, column labels.  A bin of
    the first axis is a number, a category label, or a timestamp in
    nanoseconds when the axis is temporal. *)
Inductive Key : Type :=
| KStr (s : string)
| KInt (z : Z)
| KTime (ns : Z).

Definition Key_eq_dec (a b : Key) : {a = b} + {a <> b}.
Proof.
  decide equality; first [apply string_dec | apply Z.eq_dec].
Defined.

Arguments Key_eq_dec : simpl never.

(** A pandas table: an optional index name (none for the default range
    index), the index values, the column labels and the rows. *)
Record Frame (C : Type) : Type := mkFrame {
  index_name : option Key;
  index : list C;
  columns : list Key;
  rows : list (list C)
}.

Inductive Exn : Type :=
| RuntimeError (msg : string)
| KeyError (k : Key)
| ValueError
| TypeError.

Inductive Level : Type := Debug | Info | Warning | Error.

(** The f-strings of the source, by their arguments. *)
Inductive Message : Type :=
| MsgSplitting (read_key store_key : string)
| MsgNowSplitting (feature : string)
| MsgNotSplittable (feature : string)
| MsgInconsistent (feature : string) (n_dim : Z) (n_cols : nat)
| MsgAlreadyDivided (yname : string)
| MsgEmpty (yname : string).

Section Objects.
(** The histogram objects themselves are opaque. *)
Variable Hist : Type.

Inductive Obj : Type :=
| OHist (h : Hist)                 (* a histogram *)
| OContainer (o : Obj)             (* [HistogramContainer(o)] *)
| OKey (k : Key)                   (* a scalar *)
| ONaN                             (* pandas' missing value *)
| OList (l : list Obj)
| ODict (d : list (Key * Obj))
| OFrame (f : Frame Obj).

Definition dict : Type := list (Key * Obj).
Definition Datastore : Type := list (string * Obj).

Inductive Event : Type :=
| Log (lvl : Level) (msg : Message)
(** [hc.split_hist_along_first_dimension(...)] on the container of [hist],
    with its keyword arguments. *)
| CallSplit (hist : Obj) (short_keys convert_time_index : bool)
            (xname yname : string) (filter_empty_split_hists : bool).

(** Computations that log, call and may raise. *)
Definition M (A : Type) : Type := list Event * (Exn + A).

Definition ret {A} (a : A) : M A := ([], inr a).
Definition raise {A} (e : Exn) : M A := ([], inl e).
Definition emit (ev : Event) : M unit := ([ev], inr tt).
Definition bind {A B} (m : M A) (f : A -> M B) : M B :=
  match m with
  | (tr, inl e) => (tr, inl e)
  | (tr, inr a) => let (tr', r) := f a in (tr ++ tr', r)
  end.

Definition trace {A} (m : M A) : list Event := fst m.
Definition outcome {A} (m : M A) : Exn + A := snd m.
End Objects.

Arguments OKey {Hist} k.
Arguments ONaN {Hist}.
Arguments ret {Hist A} a.
Arguments raise {Hist A} e.
Arguments emit {Hist} ev.
Arguments Log {Hist} lvl msg.

Notation "x <- m ;; k" := (bind m (fun x => k))
  (at level 61, m at next level, right associativity).
Notation "m ;;; k" := (bind m (fun _ => k))
  (at level 61, right associativity).

(* ================================================================= *)
(** ** The instance and its constructor *)

(** The attributes [HistSplitter.__init__] sets on [self]. *)
Record HistSplitter : Type := mkHistSplitter {
  read_key : string;
  store_key : string;
  features : list string;
  ignore_features : list string;
  feature_begins_with : string;
  project_on_axes : bool;
  flatten_output : bool;
  short_keys : bool;
  var_timestamp : list string;
  index_col : string;
  hist_col : string;
  filter_empty_split_hists : bool
}.

(** [x or []] for an optional list argument. *)
Definition or_empty {A} (x : option (list A)) : list A :=
  match x with
  | Some l => l
  | None => []
  end.

(** The guard that ends [HistSplitter.__init__]. *)
Definition check_flags (self : HistSplitter) : Exn + HistSplitter :=
  if self.(flatten_output) && self.(short_keys)
  then inl (RuntimeError
              "flatten_output requires short_keys attribute to be False.")
  else inr self.

(** [HistSplitter.__init__]: the attributes are stored, then the guard on
    [flatten_output] and [short_keys] is evaluated. *)
Definition HistSplitter_init
  (read_key store_key : string)
  (features ignore_features : option (list string))
  (feature_begins_with : string)
  (project_on_axes flatten_output short_keys : bool)
  (var_timestamp : option (list string))
  (index_col hist_col : string)
  (filter_empty_split_hists : bool) : Exn + HistSplitter :=
  check_flags
    (mkHistSplitter read_key store_key (or_empty features)
       (or_empty ignore_features) feature_begins_with project_on_axes
       flatten_output short_keys (or_empty var_timestamp) index_col hist_col
       filter_empty_split_hists).

(* ================================================================= *)
(** ** Collaborators *)

(** What the module imports and does not define.
    - [n_dim o], [is_ts o], [split_hist_along_first_dimension o ...]: the
      attributes and the projection of [HistogramContainer(o)]; the
      projection returns a dictionary from bin to sub-histogram, in bin
      order.
    - [get_features self keys]: [Module.get_features] on the keys of the
      input mapping.
    - [pd_other o]: what [pd.DataFrame(o)] does when [o] is not a list of
      dictionaries. *)
Record Collaborators (Hist : Type) : Type := mkCollaborators {
  n_dim : Obj Hist -> Z;
  is_ts : Obj Hist -> bool;
  split_hist_along_first_dimension :
    Obj Hist -> bool -> bool -> string -> string -> bool -> dict Hist;
  get_features : HistSplitter -> list Key -> list string;
  pd_other : Obj Hist -> Exn + Frame (Obj Hist)
}.

Section Splitter.
Variable Hist : Type.
Variable C : Collaborators Hist.

Local Abbreviation obj := (Obj Hist).
Local Abbreviation odict := (dict Hist).

(* ----------------------------------------------------------------- *)
(** *** pandas: a frame from a list of records, and [set_index] *)

Fixpoint as_records (l : list obj) : option (list odict) :=
  match l with
  | [] => Some []
  | ODict d :: r =>
      match as_records r with
      | Some ds => Some (d :: ds)
      | None => None
      end
  | _ :: _ => None
  end.

(** Column labels: the keys of the records, each at its first appearance. *)
Definition add_label (acc : list Key) (k : Key) : list Key :=
  if in_dec Key_eq_dec k acc then acc else acc ++ [k].

Definition labels_of (recs : list odict) : list Key :=
  fold_left (fun acc r => fold_left add_label (Dict.keys r) acc) recs [].

Definition cell (r : odict) (c : Key) : obj :=
  match Dict.get Key_eq_dec c r with
  | Some v => v
  | None => ONaN
  end.

(** [pd.DataFrame(recs)] for a list of dictionaries: one row per record, in
    order, under the default range index. *)
Definition frame_of_records (recs : list odict) : Frame obj :=
  let cols := labels_of recs in
  {| index_name := None;
     index := map (fun i => OKey (KInt (Z.of_nat i)))
                  (seq 0 (List.length recs));
     columns := cols;
     rows := map (fun r => map (cell r) cols) recs |}.

Definition pd_DataFrame (o : obj) : Exn + Frame obj :=
  match o with
  | OList l =>
      match as_records l with
      | Some recs => inr (frame_of_records recs)
      | None => C.(pd_other) o
      end
  | _ => C.(pd_other) o
  end.

Fixpoint position (k : Key) (l : list Key) : option nat :=
  match l with
  | [] => None
  | k' :: r =>
      if Key_eq_dec k k' then Some O
      else match position k r with
           | Some i => Some (S i)
           | None => None
           end
  end.

Definition drop_nth {A} (i : nat) (l : list A) : list A :=
  firstn i l ++ skipn (S i) l.

(** [df.set_index(col)]: the column becomes the index and leaves the
    columns; rows keep their order.  A label that is no column raises. *)
Definition set_index (df : Frame obj) (col : Key) : Exn + Frame obj :=
  match position col df.(columns) with
  | None => inl (KeyError col)
  | Some i =>
      inr {| index_name := Some col;
             index := map (fun r => nth i r ONaN) df.(rows);
             columns := drop_nth i df.(columns);
             rows := map (drop_nth i) df.(rows) |}
  end.

Definition lift {A} (r : Exn + A) : M Hist A := ([], r).

(* ----------------------------------------------------------------- *)
(** *** [Module.get_datastore_object] *)

(** Modelled from the spec: [Module.get_datastore_object(datastore, key,
    dtype=dict)] of the base class, which is not among the source files.
    The spec has each stage read "named inputs" from the store, the input
    being "a mapping from feature name to an opaque histogram object": the
    object under [key] is returned when it is there and is a dictionary,
    and the call raises otherwise. *)
Definition get_datastore_object (datastore : Datastore Hist) (key : string)
  : M Hist odict :=
  match Dict.get string_dec key datastore with
  | Some (ODict d) => ret d
  | Some _ => raise TypeError
  | None => raise ValueError
  end.

(* ----------------------------------------------------------------- *)
(** *** [HistSplitter.update_divided] *)

(** The dictionary literal [{index_col: k, hist_col: HistogramContainer(h)}]. *)
Definition record (self : HistSplitter) (k : Key) (h : obj) : odict :=
  Dict.set Key_eq_dec (KStr self.(hist_col)) (OContainer h)
    (Dict.set Key_eq_dec (KStr self.(index_col)) (OKey k) []).

Definition records (self : HistSplitter) (split : odict) : list obj :=
  map (fun kh => ODict (record self (fst kh) (snd kh))) split.

Definition update_divided (self : HistSplitter)
  (divided split : odict) (yname : string) : odict :=
  if self.(flatten_output)
  then Dict.update Key_eq_dec divided split
  else Dict.set Key_eq_dec (KStr yname) (OList (records self split)) divided.

(* ----------------------------------------------------------------- *)
(** *** [HistSplitter.transform] *)

(** [xname in self.var_timestamp] *)
Definition in_list (x : string) (l : list string) : bool :=
  existsb (String.eqb x) l.

Definition is_empty {A} (l : list A) : bool :=
  match l with
  | [] => true
  | _ :: _ => false
  end.

(** The body of the [for feature in features[:]] loop: every [continue]
    returns the accumulator as it was. *)
Definition transform_feature (self : HistSplitter) (data divided : odict)
  (feature : string) : M Hist odict :=
  emit (Log Debug (MsgNowSplitting feature)) ;;;
  match Dict.get Key_eq_dec (KStr feature) data with
  | None => raise (KeyError (KStr feature))
  | Some hist =>
      if (C.(n_dim) hist <=? 1)%Z then
        emit (Log Debug (MsgNotSplittable feature)) ;;;
        ret divided
      else
        let cols := split_colon feature in
        if negb (Z.of_nat (List.length cols) =? C.(n_dim) hist)%Z then
          emit (Log Error
                  (MsgInconsistent feature (C.(n_dim) hist) (List.length cols))) ;;;
          ret divided
        else
          let xname := hd EmptyString cols in
          let yname := join_colon (tl cols) in
          if Dict.mem Key_eq_dec (KStr yname) divided then
            emit (Log Debug (MsgAlreadyDivided yname)) ;;;
            ret divided
          else
            let is_ts_ :=
              C.(is_ts) hist || in_list xname self.(var_timestamp) in
            emit (CallSplit hist self.(short_keys) is_ts_ xname yname
                    self.(filter_empty_split_hists)) ;;;
            let split :=
              C.(split_hist_along_first_dimension) hist self.(short_keys)
                is_ts_ xname yname self.(filter_empty_split_hists) in
            if is_empty split then
              emit (Log Warning (MsgEmpty yname)) ;;;
              ret divided
            else
              ret (update_divided self divided split yname)
  end.

(** The loop over the candidates. *)
Fixpoint transform_loop (self : HistSplitter) (data : odict)
  (candidates : list string) (divided : odict) : M Hist odict :=
  match candidates with
  | [] => ret divided
  | feature :: rest =>
      divided' <- transform_feature self data divided feature ;;
      transform_loop self data rest divided'
  end.

(** [for k in keys: divided[k] =
      pd.DataFrame(divided.pop(k)).set_index(self.index_col)] *)
Fixpoint transform_frames (self : HistSplitter) (keys : list Key)
  (divided : odict) : M Hist odict :=
  match keys with
  | [] => ret divided
  | k :: ks =>
      match Dict.pop Key_eq_dec k divided with
      | None => raise (KeyError k)
      | Some (v, divided') =>
          df <- lift (pd_DataFrame v) ;;
          tbl <- lift (set_index df (KStr self.(index_col))) ;;
          transform_frames self ks
            (Dict.set Key_eq_dec k (OFrame tbl) divided')
      end
  end.

(** [transform] once the candidates are resolved: the loop, the
    conversion to tables and the write to the store. *)
Definition transform_on (self : HistSplitter) (candidates : list string)
  (data : odict) (datastore : Datastore Hist) : M Hist (Datastore Hist) :=
  divided <- transform_loop self data candidates [] ;;
  tables <- transform_frames self (Dict.keys divided) divided ;;
  ret (Dict.set string_dec self.(store_key) (ODict tables) datastore).

(** [HistSplitter.transform]: the result is the datastore that was passed
    in, with [store_key] assigned; when an exception is raised the store
    has not been written. *)
Definition transform (self : HistSplitter) (datastore : Datastore Hist)
  : M Hist (Datastore Hist) :=
  emit (Log Info (MsgSplitting self.(read_key) self.(store_key))) ;;;
  data <- get_datastore_object datastore self.(read_key) ;;
  transform_on self (C.(get_features) self (Dict.keys data)) data datastore.

(* ----------------------------------------------------------------- *)
(** *** Vocabulary of the statements *)

(** ['time:x:y' -> 'time', 'x:y'] *)
Definition xname_of (feature : string) : string :=
  hd EmptyString (split_colon feature).

Definition yname_of (feature : string) : string :=
  join_colon (tl (split_colon feature)).

(** The flag [transform] computes for [convert_time_index]. *)
Definition temporal (self : HistSplitter) (hist : obj) (feature : string)
  : bool :=
  C.(is_ts) hist || in_list (xname_of feature) self.(var_timestamp).

(** The projection of a candidate as [transform] requests it. *)
Definition projection (self : HistSplitter) (hist : obj) (feature : string)
  : odict :=
  C.(split_hist_along_first_dimension) hist self.(short_keys)
    (temporal self hist feature) (xname_of feature) (yname_of feature)
    self.(filter_empty_split_hists).

(** The projections a trace records, each with its [yname], and those
    among them that are not empty: the groups that were accumulated. *)
Definition projection_of (ev : Event Hist) : list (string * odict) :=
  match ev with
  | CallSplit h sk ct x y fl =>
      [(y, C.(split_hist_along_first_dimension) h sk ct x y fl)]
  | Log _ _ => []
  end.

Definition accumulated (tr : list (Event Hist)) : list (string * odict) :=
  filter (fun g => negb (is_empty (snd g))) (flat_map projection_of tr).

(** The table of a group: index named [index_col], one row per bin of the
    projection, in its order.  With distinct field names the index holds
    the bins and the only column the wrapped sub-histograms; when
    [hist_col] is [index_col] the record literal has a single field and
    the index holds the wrapped sub-histograms. *)
Definition split_table (self : HistSplitter) (split : odict) : Frame obj :=
  if string_dec self.(hist_col) self.(index_col) then
    {| index_name := Some (KStr self.(index_col));
       index := map (fun kh => OContainer (snd kh)) split;
       columns := [];
       rows := map (fun _ => []) split |}
  else
    {| index_name := Some (KStr self.(index_col));
       index := map (fun kh => OKey (fst kh)) split;
       columns := [KStr self.(hist_col)];
       rows := map (fun kh => [OContainer (snd kh)]) split |}.

(** [pd.DataFrame(v).set_index(index_col)] as a value. *)
Definition to_table (self : HistSplitter) (v : obj) : Exn + obj :=
  match pd_DataFrame v with
  | inl e => inl e
  | inr df =>
      match set_index df (KStr self.(index_col)) with
      | inl e => inl e
      | inr tbl => inr (OFrame tbl)
      end
  end.

(** The conversion of every value of a dictionary, in order. *)
Fixpoint tables_of (self : HistSplitter) (d : odict) : Exn + odict :=
  match d with
  | [] => inr []
  | (k, v) :: r =>
      match to_table self v with
      | inl e => inl e
      | inr tbl =>
          match tables_of self r with
          | inl e => inl e
          | inr r' => inr ((k, tbl) :: r')
          end
      end
  end.

(** The accumulator entry of a group in nested mode, and its entry in the
    output. *)
Definition group_entry (self : HistSplitter) (g : string * odict)
  : Key * obj :=
  (KStr (fst g), OList (records self (snd g))).

Definition group_table (self : HistSplitter) (g : string * odict)
  : Key * obj :=
  (KStr (fst g), OFrame (split_table self (snd g))).

(** A candidate that [transform_feature] passes over without touching the
    accumulator, whatever the accumulator holds. *)
Definition skipped (self : HistSplitter) (hist : obj) (feature : string)
  : Prop :=
  (C.(n_dim) hist <= 1)%Z
  \/ Z.of_nat (List.length (split_colon feature)) <> C.(n_dim) hist
  \/ projection self hist feature = [].

(** A candidate that reaches the check of the accumulator. *)
Definition splittable (hist : obj) (feature : string) : Prop :=
  (1 < C.(n_dim) hist)%Z
  /\ Z.of_nat (List.length (split_colon feature)) = C.(n_dim) hist.

Definition is_call (ev : Event Hist) : bool :=
  match ev with
  | CallSplit _ _ _ _ _ _ => true
  | Log _ _ => false
  end.

(* ----------------------------------------------------------------- *)
(** *** Three sentences of the specification, as they are worded *)

(** "Two distinct input features that reduce to the same [yname]: only
    the first-processed one's projection appears in the output; the
    second is skipped", before its projection is invoked. *)
Definition earlier_candidate_always_wins (self : HistSplitter)
  (ds : Datastore Hist) : Prop :=
  forall data l0 f1 l1 f2 l2 h1 h2 tr ds' out,
    Dict.get string_dec self.(read_key) ds = Some (ODict data) ->
    C.(get_features) self (Dict.keys data) = l0 ++ f1 :: l1 ++ f2 :: l2 ->
    f1 <> f2 ->
    yname_of f1 = yname_of f2 ->
    Dict.get Key_eq_dec (KStr f1) data = Some h1 ->
    Dict.get Key_eq_dec (KStr f2) data = Some h2 ->
    transform self ds = (tr, inr ds') ->
    Dict.get string_dec self.(store_key) ds' = Some (ODict out) ->
    ~ In (CallSplit h2 self.(short_keys) (temporal self h2 f2)
            (xname_of f2) (yname_of f2) self.(filter_empty_split_hists)) tr
    /\ Dict.get Key_eq_dec (KStr (yname_of f1)) out
       = Some (OFrame (split_table self (projection self h1 f1))).

(** "Axis-count of the feature name does not match histogram
    dimensionality: per-feature skip with logged error." *)
Definition every_mismatch_logs_an_error (self : HistSplitter)
  (ds : Datastore Hist) : Prop :=
  forall data feature hist,
    Dict.get string_dec self.(read_key) ds = Some (ODict data) ->
    In feature (C.(get_features) self (Dict.keys data)) ->
    Dict.get Key_eq_dec (KStr feature) data = Some hist ->
    Z.of_nat (List.length (split_colon feature)) <> C.(n_dim) hist ->
    exists msg, In (Log Error msg) (trace (transform self ds)).

(** "For any histogram with dimensionality at most 1, splitting produces
    no entry for its derived group." *)
Definition low_dimension_leaves_no_group (self : HistSplitter)
  (ds : Datastore Hist) : Prop :=
  forall data feature hist tr ds' out,
    Dict.get string_dec self.(read_key) ds = Some (ODict data) ->
    In feature (C.(get_features) self (Dict.keys data)) ->
    Dict.get Key_eq_dec (KStr feature) data = Some hist ->
    (C.(n_dim) hist <= 1)%Z ->
    transform self ds = (tr, inr ds') ->
    Dict.get string_dec self.(store_key) ds' = Some (ODict out) ->
    Dict.get Key_eq_dec (KStr (yname_of feature)) out = None.

End Splitter.

(* ================================================================= *)
(** ** Sample collaborators

    One concrete choice of collaborators, for running the splitter on
    concrete stores.  A sample histogram knows its dimension, whether its
    first axis is temporal, and the entries under each bin of its first
    axis. *)

Record SampleHist : Type := mkSample {
  sample_dim : Z;
  sample_temporal : bool;
  sample_bins : list (Z * Z)
}.

Definition sample_n_dim (o : Obj SampleHist) : Z :=
  match o with
  | OHist h => h.(sample_dim)
  | _ => 0%Z
  end.

Definition sample_is_ts (o : Obj SampleHist) : bool :=
  match o with
  | OHist h => h.(sample_temporal)
  | _ => false
  end.

(** One sub-histogram per bin, in bin order; empty ones are dropped when
    the filter is on; the bin is a timestamp when conversion is asked for. *)
Definition sample_split (o : Obj SampleHist)
  (short_keys convert_time_index : bool) (xname yname : string)
  (filter_empty : bool) : dict SampleHist :=
  match o with
  | OHist h =>
      map (fun b =>
             (if convert_time_index then KTime (fst b) else KInt (fst b),
              OHist (mkSample (h.(sample_dim) - 1) false [(0%Z, snd b)])))
          (filter (fun b => negb filter_empty || negb (snd b =? 0)%Z)
                  h.(sample_bins))
  | _ => []
  end.

(** Every feature name of the mapping, in its order. *)
Definition sample_get_features (self : HistSplitter) (keys : list Key)
  : list string :=
  flat_map (fun k => match k with KStr s => [s] | _ => [] end) keys.

Definition sample_with
  (pd : Obj SampleHist -> Exn + Frame (Obj SampleHist))
  : Collaborators SampleHist :=
  mkCollaborators sample_n_dim sample_is_ts sample_split
    sample_get_features pd.

(** pandas refuses an object that is no table data. *)
Definition sample : Collaborators SampleHist :=
  sample_with (fun _ => inl ValueError).

Definition sample_splitter (read store : string) (flatten short : bool)
  : HistSplitter :=
  mkHistSplitter read store [] [] EmptyString true flatten short []
    "date" "histogram" true.

(** A 2-D histogram over two bins with entries, and one whose bins are
    all empty. *)
Definition hist_2d : SampleHist := mkSample 2 false [(0, 5); (1, 7)]%Z.
Definition hist_2d_other : SampleHist := mkSample 2 false [(3, 1)]%Z.
Definition hist_2d_empty : SampleHist := mkSample 2 false [(0, 0); (1, 0)]%Z.
Definition hist_1d : SampleHist := mkSample 1 false [(0, 4)]%Z.

(** The 3-D histogram of the spec's scenario: axis [cat] with bins 0 and
    1, bin 1 without entries. *)
Definition hist_3d : SampleHist := mkSample 3 false [(0, 5); (1, 0)]%Z.

(** A store with one input mapping under ["hists"]. *)
Definition store_of (data : dict SampleHist) : Datastore SampleHist :=
  [("hists"%string, ODict data)].

Definition data_scenario : dict SampleHist :=
  [(KStr "cat:x:y", OHist hist_3d)].

(** Two candidates with the same [yname]; the projection of the first is
    empty. *)
Definition data_same_yname : dict SampleHist :=
  [(KStr "a:x", OHist hist_2d_empty); (KStr "b:x", OHist hist_2d)].

(** Two candidates with the same [yname], both with entries. *)
Definition data_two_writers : dict SampleHist :=
  [(KStr "t:x", OHist hist_2d); (KStr "u:x", OHist hist_2d_other)].

(** A 1-D histogram under a name of two tokens, next to a sound
    candidate. *)
Definition data_low_dimension : dict SampleHist :=
  [(KStr "a:b", OHist hist_1d); (KStr "t:x", OHist hist_2d)].

(** A 1-D histogram and a sound candidate whose names derive the same
    group. *)
Definition data_shared_group : dict SampleHist :=
  [(KStr "a:x", OHist hist_1d); (KStr "b:x", OHist hist_2d)].

(** A 2-D histogram under a name of three tokens, next to a sound
    candidate. *)
Definition data_inconsistent : dict SampleHist :=
  [(KStr "q:r:s", OHist hist_2d); (KStr "t:x", OHist hist_2d)].

Definition data_empty_projection : dict SampleHist :=
  [(KStr "e:y", OHist hist_2d_empty); (KStr "t:x", OHist hist_2d)].

Definition data_single : dict SampleHist :=
  [(KStr "t:x", OHist hist_2d)].

Definition nested_splitter : HistSplitter :=
  sample_splitter "hists" "split" false true.

Definition flat_splitter : HistSplitter :=
  sample_splitter "hists" "split" true false.

(** An instance that stores over its own input. *)
Definition in_place_splitter : HistSplitter :=
  sample_splitter "hists" "hists" false true.

(** The result of a run of the sample, evaluated. *)
Definition events_of (self : HistSplitter) (data : dict SampleHist)
  : list (Event SampleHist) :=
  trace (transform sample self (store_of data)).

Definition store_after (self : HistSplitter) (data : dict SampleHist)
  : Datastore SampleHist :=
  match outcome (transform sample self (store_of data)) with
  | inr ds => ds
  | inl _ => []
  end.

(** A token of [split_colon] holds no colon. *)
Fixpoint colon_free (s : string) : bool :=
  match s with
  | EmptyString => true
  | String c rest => negb (Ascii.eqb c colon) && colon_free rest
  end.

(* ================================================================= *)
(** ** The plotting backend ([popmon/visualization/backend.py])

    What the functions read is gathered in an environment: whether
    [matplotlib] can be imported and what it reports, the IPython shell,
    the [DISPLAY] variable and whether [matplotlib.pyplot] is among the
    loaded modules.  What they do to matplotlib and the logger is an
    effect in a trace.  A character stands for the code point of the same
    number; strings with code points from 256 on are not represented. *)

Module Backend.

(** [c.isdigit()] for one character: the ten digits and the superscripts
    two, three and one. *)
Definition isdigit (c : ascii) : bool :=
  let n := nat_of_ascii c in
  ((48 <=? n) && (n <=? 57))%nat
  || (n =? 178)%nat || (n =? 179)%nat || (n =? 185)%nat.

(** [c.lower()] for one character: the capitals of the ASCII and Latin-1
    ranges move up by 32; the multiplication sign stays. *)
Definition lower_char (c : ascii) : ascii :=
  let n := nat_of_ascii c in
  if ((65 <=? n) && (n <=? 90))%nat
     || ((192 <=? n) && (n <=? 222) && negb (n =? 215))%nat
  then ascii_of_nat (n + 32)
  else c.

(** [s.lower()] *)
Fixpoint lower (s : string) : string :=
  match s with
  | EmptyString => EmptyString
  | String c rest => String (lower_char c) (lower rest)
  end.

(** [s.startswith(":")] *)
Definition startswith_colon (s : string) : bool :=
  match s with
  | String c _ => Ascii.eqb c colon
  | EmptyString => false
  end.

Inductive Reason : Type :=
| NoDisplayFound
| NonInteractiveRequired (requested : string)
| PyplotAlreadyLoaded.

(** What the call can raise: one of the three [RuntimeError]s of the
    function, the [IndexError] of an index out of range, or whatever
    [matplotlib.use(backend)] raises for a backend it cannot validate or
    load. *)
Inductive Error : Type :=
| RuntimeError (why : Reason)
| IndexError
| UseFailed (backend : string).

Inductive Notice : Type :=
| NoticeNoDisplay
| NoticeSetNonInteractive (chosen requested : string)
| NoticePyplotLoaded.

Inductive Effect : Type :=
| Interactive (on : bool)       (* [matplotlib.interactive(on)] *)
| Use (backend : string)        (* [matplotlib.use(backend)] *)
| Warn (notice : Notice).       (* [logger.warning(...)] *)

(** The IPython shell: the package is missing, [get_ipython()] is [None],
    or the shell has a configuration with these keys. *)
Inductive IPython : Type :=
| NoIPython
| NoShell
| Shell (config_keys : list string).

(** What matplotlib reports: the current backend, the non-interactive
    backends, and the backends [matplotlib.use] accepts; for any other it
    raises. *)
Record Matplotlib : Type := mkMatplotlib {
  get_backend : string;
  non_interactive_bk : list string;
  use_accepts : string -> bool
}.

Record Env : Type := mkEnv {
  matplotlib : option Matplotlib;   (* [None]: the import fails *)
  ipython : IPython;
  DISPLAY : option string;          (* [os.environ.get("DISPLAY")] *)
  pyplot_loaded : bool              (* ["matplotlib.pyplot" in sys.modules] *)
}.

(** The [batch] argument: [None], a [bool], or anything else. *)
Inductive BatchArg : Type :=
| BatchNone
| BatchBool (b : bool)
| BatchOther.

Definition B (A : Type) : Type := list Effect * (Error + A).

Definition pure {A} (a : A) : B A := ([], inr a).
Definition fail {A} (e : Error) : B A := ([], inl e).
Definition effect (e : Effect) : B unit := ([e], inr tt).
Definition lift {A} (r : Error + A) : B A := ([], r).
Definition and_then {A C} (m : B A) (f : A -> B C) : B C :=
  match m with
  | (tr, inl e) => (tr, inl e)
  | (tr, inr a) => let (tr', r) := f a in (tr ++ tr', r)
  end.

Definition effects {A} (m : B A) : list Effect := fst m.
Definition result {A} (m : B A) : Error + A := snd m.

Notation "x <~ m ;; k" := (and_then m (fun x => k))
  (at level 61, m at next level, right associativity).
Notation "m ;;> k" := (and_then m (fun _ => k))
  (at level 61, right associativity).

(** [in_ipynb]: both exceptions of the [try] give [False]. *)
Definition in_ipynb (env : Env) : bool :=
  match env.(ipython) with
  | NoIPython => false
  | NoShell => false
  | Shell config_keys => in_list "IPKernelApp" config_keys
  end.

(** [display is None or not display.startswith(":")
     or not display[1].isdigit()], left to right. *)
Definition run_display (display : option string) : Error + bool :=
  match display with
  | None => inr true
  | Some d =>
      if negb (startswith_colon d) then inr true
      else match String.get 1 d with
           | None => inl IndexError
           | Some c => inr (negb (isdigit c))
           end
  end.

(** [check_interactive_backend] *)
Definition check_interactive_backend (env : Env) : Error + bool :=
  let run_ipynb := in_ipynb env in
  match run_display env.(DISPLAY) with
  | inl e => inl e
  | inr no_display => inr (if run_ipynb || negb no_display then true else false)
  end.

(** [matplotlib.use(backend)]: the call is made; it returns or raises. *)
Definition use (mpl : Matplotlib) (backend : string) : B unit :=
  ([Use backend],
   if mpl.(use_accepts) backend then inr tt else inl (UseFailed backend)).

(** [l[0]] *)
Definition first (l : list string) : B string :=
  match l with
  | [] => fail IndexError
  | x :: _ => pure x
  end.

(** [not backend] *)
Definition falsy (backend : option string) : bool :=
  match backend with
  | None => true
  | Some EmptyString => true
  | Some (String _ _) => false
  end.

(** [str(backend)] *)
Definition str (backend : option string) : string :=
  match backend with
  | None => "None"
  | Some s => s
  end.

(** [set_matplotlib_backend] *)
Definition set_matplotlib_backend (env : Env) (backend : option string)
  (batch : BatchArg) (silent : bool) : B unit :=
  match env.(matplotlib) with
  | None => pure tt
  | Some mpl =>
      run_interactive <~ lift (check_interactive_backend env) ;;
      let run_batch :=
        match batch with
        | BatchBool b => b
        | _ => negb run_interactive
        end in
      (if negb run_batch && negb run_interactive then
         if negb silent then fail (RuntimeError NoDisplayFound)
         else effect (Warn NoticeNoDisplay)
       else pure tt) ;;>
      (if run_batch then effect (Interactive false) else pure tt) ;;>
      let pyplot_imported := env.(pyplot_loaded) in
      let curr_backend := lower mpl.(get_backend) in
      let ni_backends := map lower mpl.(non_interactive_bk) in
      chosen <~ (if falsy backend then
                   if negb run_batch || in_list curr_backend ni_backends
                   then pure curr_backend
                   else first ni_backends
                 else pure (str backend)) ;;
      let chosen := lower chosen in
      chosen <~ (if run_batch && negb (in_list chosen ni_backends) then
                   if negb silent
                   then fail (RuntimeError (NonInteractiveRequired chosen))
                   else
                     fallback <~ first ni_backends ;;
                     effect (Warn (NoticeSetNonInteractive fallback chosen)) ;;>
                     pure fallback
                 else pure chosen) ;;
      if String.eqb chosen curr_backend then pure tt
      else if pyplot_imported then
        if negb silent then fail (RuntimeError PyplotAlreadyLoaded)
        else effect (Warn NoticePyplotLoaded)
      else use mpl chosen
  end.

(** The mode the call settles on. *)
Definition batch_mode (batch : BatchArg) (run_interactive : bool) : bool :=
  match batch with
  | BatchBool b => b
  | _ => negb run_interactive
  end.

(** The blocks of [set_matplotlib_backend], under the comments that head
    them in the source. *)

(** "check if interactive mode actually can be used, if it is requested" *)
Definition check_display (run_batch run_interactive silent : bool)
  : B unit :=
  if negb run_batch && negb run_interactive then
    if negb silent then fail (RuntimeError NoDisplayFound)
    else effect (Warn NoticeNoDisplay)
  else pure tt.

(** [if run_batch: matplotlib.interactive(False)] *)
Definition leave_interactive (run_batch : bool) : B unit :=
  if run_batch then effect (Interactive false) else pure tt.

(** "determine backend to be set" *)
Definition determine (run_batch : bool) (curr_backend : string)
  (ni_backends : list string) (backend : option string) : B string :=
  if falsy backend then
    if negb run_batch || in_list curr_backend ni_backends
    then pure curr_backend
    else first ni_backends
  else pure (str backend).

(** "check if backend is compatible with mode" *)
Definition make_compatible (run_batch silent : bool)
  (ni_backends : list string) (chosen : string) : B string :=
  if run_batch && negb (in_list chosen ni_backends) then
    if negb silent
    then fail (RuntimeError (NonInteractiveRequired chosen))
    else
      fallback <~ first ni_backends ;;
      effect (Warn (NoticeSetNonInteractive fallback chosen)) ;;>
      pure fallback
  else pure chosen.

(** "check if backend has to change", "check if backend can still be
    set", "set matplotlib backend" *)
Definition set_if_needed (silent pyplot_imported : bool)
  (mpl : Matplotlib) (curr_backend chosen : string) : B unit :=
  if String.eqb chosen curr_backend then pure tt
  else if pyplot_imported then
    if negb silent then fail (RuntimeError PyplotAlreadyLoaded)
    else effect (Warn NoticePyplotLoaded)
  else use mpl chosen.

Definition is_use (e : Effect) : bool :=
  match e with
  | Use _ => true
  | _ => false
  end.

(** The backend in force after a call that has returned: the one handed
    to [matplotlib.use] if there was such a call, the current one
    otherwise. *)
Fixpoint backend_after (current : string) (effs : list Effect) : string :=
  match effs with
  | [] => current
  | Use b :: rest => backend_after b rest
  | _ :: rest => backend_after current rest
  end.

(** The environment once matplotlib reports another backend. *)
Definition with_backend (env : Env) (b : string) : Env :=
  match env.(matplotlib) with
  | None => env
  | Some mpl =>
      mkEnv (Some (mkMatplotlib b mpl.(non_interactive_bk)
                     mpl.(use_accepts)))
        env.(ipython) env.(DISPLAY) env.(pyplot_loaded)
  end.

(** The backends the sample matplotlib can set. *)
Definition known (backend : string) : bool :=
  in_list backend ["agg"; "cairo"; "pdf"; "pgf"; "ps"; "svg"; "template";
                   "tkagg"; "qt5agg"]%string.

(** A workstation: matplotlib on [TkAgg], an X display, no notebook. *)
Definition desktop : Env :=
  mkEnv (Some (mkMatplotlib "TkAgg" ["agg"; "cairo"; "pdf"; "pgf"; "ps";
                                      "svg"; "template"]%string known))
    NoShell (Some ":0"%string) false.

(** A batch node: no display. *)
Definition headless : Env :=
  mkEnv (Some (mkMatplotlib "TkAgg" ["agg"; "cairo"; "pdf"; "pgf"; "ps";
                                      "svg"; "template"]%string known))
    NoShell None false.

(** A display variable that is a lone colon. *)
Definition lone_colon : Env :=
  mkEnv (Some (mkMatplotlib "TkAgg" ["agg"%string] known))
    (Shell ["IPKernelApp"%string]) (Some ":"%string) false.

End Backend.

Unset Implicit Arguments.

(* ================================================================= *)
(** ** Facts about dictionaries *)

Section DictFacts.
Context {K V : Type}.
Variable dec : forall a b : K, {a = b} + {a <> b}.

Lemma get_set_same (k : K) (v : V) (d : Dict.t) :
  Dict.get dec k (Dict.set dec k v d) = Some v.
Proof.
  induction d as [|[k' v'] r IH]; simpl.
  - destruct (dec k k); congruence.
  - destruct (dec k k') as [e|n]; simpl.
    + destruct (dec k k'); congruence.
    + destruct (dec k k'); congruence.
Qed.

Lemma get_set_other (k k' : K) (v : V) (d : Dict.t) :
  k <> k' -> Dict.get dec k' (Dict.set dec k v d) = Dict.get dec k' d.
Proof.
  intros Hne. induction d as [|[k0 v0] r IH]; simpl.
  - destruct (dec k' k); congruence.
  - destruct (dec k k0) as [e|n]; simpl.
    + subst k0. destruct (dec k' k); congruence.
    + destruct (dec k' k0); congruence.
Qed.

Lemma get_none_iff (k : K) (d : @Dict.t K V) :
  Dict.get dec k d = None <-> ~ In k (Dict.keys d).
Proof.
  induction d as [|[k' v'] r IH]; simpl.
  - tauto.
  - destruct (dec k k') as [e|n].
    + split; [discriminate | intros H; exfalso; apply H; left; congruence].
    + rewrite IH. split.
      * intros H [E|I]; [congruence | tauto].
      * intros H I. apply H. now right.
Qed.

Lemma mem_false_iff (k : K) (d : @Dict.t K V) :
  Dict.mem dec k d = false <-> ~ In k (Dict.keys d).
Proof.
  unfold Dict.mem. rewrite <- get_none_iff.
  destruct (Dict.get dec k d); split; congruence.
Qed.

Lemma set_absent (k : K) (v : V) (d : Dict.t) :
  ~ In k (Dict.keys d) -> Dict.set dec k v d = d ++ [(k, v)].
Proof.
  induction d as [|[k' v'] r IH]; simpl; intros H.
  - reflexivity.
  - destruct (dec k k') as [e|n].
    + exfalso. apply H. left. congruence.
    + rewrite IH; [reflexivity | tauto].
Qed.

Lemma keys_set (k : K) (v : V) (d : Dict.t) :
  Dict.keys (Dict.set dec k v d) =
  if in_dec dec k (Dict.keys d) then Dict.keys d else Dict.keys d ++ [k].
Proof.
  induction d as [|[k' v'] r IH]; simpl.
  - reflexivity.
  - destruct (dec k k') as [e|n]; simpl.
    + destruct (dec k' k); [reflexivity | congruence].
    + destruct (dec k' k) as [e'|n']; [congruence|].
      rewrite IH. destruct (in_dec dec k (Dict.keys r)); reflexivity.
Qed.

Lemma get_set_elsewhere (k k' : K) (v : V) (d : Dict.t) :
  k <> k' -> Dict.get dec k (Dict.set dec k' v d) = Dict.get dec k d.
Proof.
  intros H. apply get_set_other. congruence.
Qed.

Lemma in_get_nodup (k : K) (v : V) (d : Dict.t) :
  NoDup (Dict.keys d) -> In (k, v) d -> Dict.get dec k d = Some v.
Proof.
  induction d as [|[k' v'] r IH]; simpl; intros ND I; [contradiction|].
  inversion ND as [|? ? Hn ND']; subst.
  destruct I as [E|I].
  - inversion E; subst. destruct (dec k k); congruence.
  - destruct (dec k k') as [e|n].
    + subst k'. exfalso. apply Hn. change k with (fst (k, v)).
      now apply in_map.
    + auto.
Qed.

Lemma update_cons (d : Dict.t) (k : K) (v : V) (src : Dict.t) :
  Dict.update dec d ((k, v) :: src) = Dict.update dec (Dict.set dec k v d) src.
Proof. reflexivity. Qed.

End DictFacts.

(* ================================================================= *)
(** ** Facts about [split] and [join] *)

Lemma split_colon_nonempty (s : string) : split_colon s <> [].
Proof.
  destruct s as [|c rest]; simpl; [discriminate|].
  destruct (Ascii.eqb c colon); [discriminate|].
  destruct (split_colon rest); discriminate.
Qed.

Lemma split_colon_length (s : string) : (1 <= List.length (split_colon s))%nat.
Proof.
  pose proof (split_colon_nonempty s) as H.
  destruct (split_colon s); simpl; [congruence | lia].
Qed.

Lemma join_split_colon (s : string) : join_colon (split_colon s) = s.
Proof.
  induction s as [|c rest IH]; simpl; [reflexivity|].
  destruct (Ascii.eqb c colon) eqn:E.
  - apply Ascii.eqb_eq in E. subst c.
    pose proof (split_colon_nonempty rest) as Hne.
    destruct (split_colon rest) as [|tok toks]; [congruence|].
    simpl. simpl in IH. rewrite IH. reflexivity.
  - pose proof (split_colon_nonempty rest) as Hne.
    destruct (split_colon rest) as [|tok toks]; [congruence|].
    simpl in IH. simpl. destruct toks as [|tok' toks'].
    + now rewrite IH.
    + simpl. rewrite <- IH. reflexivity.
Qed.

(** A feature name is its first token, a colon and its [yname] as soon as
    it has two tokens. *)
Lemma feature_of_names (feature : string) :
  (2 <= List.length (split_colon feature))%nat ->
  feature =
  (xname_of feature ++ String colon (yname_of feature))%string.
Proof.
  unfold xname_of, yname_of. intros H.
  rewrite <- (join_split_colon feature) at 1.
  destruct (split_colon feature) as [|tok [|tok' toks]]; simpl in *;
    try lia.
  reflexivity.
Qed.

(* ================================================================= *)
(** ** Facts about the computations *)

Section MonadFacts.
Variable Hist : Type.

Lemma trace_bind {A B} (m : M Hist A) (f : A -> M Hist B) :
  trace (bind m f) =
  trace m ++ match outcome m with
             | inl _ => []
             | inr a => trace (f a)
             end.
Proof.
  destruct m as [tr [e|a]]; simpl.
  - now rewrite app_nil_r.
  - destruct (f a); reflexivity.
Qed.

Lemma outcome_bind {A B} (m : M Hist A) (f : A -> M Hist B) :
  outcome (bind m f) =
  match outcome m with
  | inl e => inl e
  | inr a => outcome (f a)
  end.
Proof.
  destruct m as [tr [e|a]]; simpl.
  - reflexivity.
  - destruct (f a); reflexivity.
Qed.

End MonadFacts.

Section SplitterFacts.
Variable Hist : Type.
Variable C : Collaborators Hist.

Local Abbreviation obj := (Obj Hist).
Local Abbreviation odict := (dict Hist).

(* ----------------------------------------------------------------- *)
(** *** One candidate *)

(** The five exits of the loop body and its one way through. *)
Lemma transform_feature_eq (self : HistSplitter) (data divided : odict)
  (feature : string) :
  transform_feature C self data divided feature =
  match Dict.get Key_eq_dec (KStr feature) data with
  | None =>
      ([Log Debug (MsgNowSplitting feature)], inl (KeyError (KStr feature)))
  | Some hist =>
      if (C.(n_dim) hist <=? 1)%Z then
        ([Log Debug (MsgNowSplitting feature);
          Log Debug (MsgNotSplittable feature)], inr divided)
      else if negb (Z.of_nat (List.length (split_colon feature))
                    =? C.(n_dim) hist)%Z then
        ([Log Debug (MsgNowSplitting feature);
          Log Error (MsgInconsistent feature (C.(n_dim) hist)
                       (List.length (split_colon feature)))], inr divided)
      else if Dict.mem Key_eq_dec (KStr (yname_of feature)) divided then
        ([Log Debug (MsgNowSplitting feature);
          Log Debug (MsgAlreadyDivided (yname_of feature))], inr divided)
      else if is_empty (projection C self hist feature) then
        ([Log Debug (MsgNowSplitting feature);
          CallSplit hist self.(short_keys) (temporal C self hist feature)
            (xname_of feature) (yname_of feature)
            self.(filter_empty_split_hists);
          Log Warning (MsgEmpty (yname_of feature))], inr divided)
      else
        ([Log Debug (MsgNowSplitting feature);
          CallSplit hist self.(short_keys) (temporal C self hist feature)
            (xname_of feature) (yname_of feature)
            self.(filter_empty_split_hists)],
         inr (update_divided self divided (projection C self hist feature)
                (yname_of feature)))
  end.
Proof.
  unfold transform_feature, projection, temporal, xname_of, yname_of.
  destruct (Dict.get Key_eq_dec (KStr feature) data) as [hist|];
    [|reflexivity].
  destruct (C.(n_dim) hist <=? 1)%Z; [reflexivity|].
  destruct (negb _); [reflexivity|].
  destruct (Dict.mem _ _ _); [reflexivity|].
  simpl. destruct (is_empty _); reflexivity.
Qed.

(** A skipped candidate hands the accumulator on as it received it. *)
Lemma skipped_outcome (self : HistSplitter) (data divided : odict)
  (feature : string) (hist : obj) :
  Dict.get Key_eq_dec (KStr feature) data = Some hist ->
  skipped C self hist feature ->
  outcome (transform_feature C self data divided feature) = inr divided.
Proof.
  intros Hget Hskip. rewrite transform_feature_eq, Hget.
  destruct (C.(n_dim) hist <=? 1)%Z eqn:E1; [reflexivity|].
  destruct (negb _) eqn:E2; [reflexivity|].
  destruct (Dict.mem _ _ _); [reflexivity|].
  destruct Hskip as [H|[H|H]].
  - apply Z.leb_gt in E1. lia.
  - apply negb_false_iff, Z.eqb_eq in E2. contradiction.
  - rewrite H. reflexivity.
Qed.

(** The events of one candidate name that candidate. *)
Lemma transform_feature_calls (self : HistSplitter) (data divided : odict)
  (feature : string) h sk ct x y fl :
  In (CallSplit h sk ct x y fl)
     (trace (transform_feature C self data divided feature)) ->
  Dict.get Key_eq_dec (KStr feature) data = Some h
  /\ splittable C h feature
  /\ Dict.mem Key_eq_dec (KStr (yname_of feature)) divided = false
  /\ sk = self.(short_keys)
  /\ ct = temporal C self h feature
  /\ x = xname_of feature
  /\ y = yname_of feature
  /\ fl = self.(filter_empty_split_hists).
Proof.
  rewrite transform_feature_eq.
  destruct (Dict.get Key_eq_dec (KStr feature) data) as [hist|].
  2:{ simpl. intros [H|[]]. discriminate. }
  destruct (C.(n_dim) hist <=? 1)%Z eqn:E1.
  { simpl. intros [H|[H|[]]]; discriminate. }
  destruct (negb _) eqn:E2.
  { simpl. intros [H|[H|[]]]; discriminate. }
  destruct (Dict.mem _ _ _) eqn:E3.
  { simpl. intros [H|[H|[]]]; discriminate. }
  apply Z.leb_gt in E1. apply negb_false_iff, Z.eqb_eq in E2.
  assert (Hcall : forall tl_,
    In (CallSplit h sk ct x y fl)
       (Log Debug (MsgNowSplitting feature)
        :: CallSplit hist self.(short_keys) (temporal C self hist feature)
             (xname_of feature) (yname_of feature)
             self.(filter_empty_split_hists) :: tl_) ->
    (forall ev, In ev tl_ -> is_call ev = false) ->
    hist = h /\ sk = self.(short_keys) /\ ct = temporal C self hist feature
    /\ x = xname_of feature /\ y = yname_of feature
    /\ fl = self.(filter_empty_split_hists)).
  { intros tl_ [H|[H|H]] Hno.
    - discriminate.
    - inversion H; subst. repeat split; reflexivity.
    - apply Hno in H. discriminate. }
  destruct (is_empty _); simpl trace; intros HIn.
  - apply Hcall in HIn.
    + destruct HIn as (-> & -> & -> & -> & -> & ->).
      repeat split; auto.
    + intros ev [<-|[]]. reflexivity.
  - apply Hcall in HIn.
    + destruct HIn as (-> & -> & -> & -> & -> & ->).
      repeat split; auto.
    + intros ev [].
Qed.

(* ----------------------------------------------------------------- *)
(** *** The loop *)

Lemma transform_loop_app (self : HistSplitter) (data : odict)
  (l1 l2 : list string) (divided : odict) :
  transform_loop C self data (l1 ++ l2) divided =
  bind (transform_loop C self data l1 divided)
       (fun d => transform_loop C self data l2 d).
Proof.
  revert divided. induction l1 as [|f l1 IH]; intros divided; simpl.
  - destruct (transform_loop C self data l2 divided); reflexivity.
  - destruct (transform_feature C self data divided f) as [tr [e|d]]; simpl.
    + reflexivity.
    + rewrite IH.
      destruct (transform_loop C self data l1 d) as [tr1 [e1|d1]]; simpl.
      * reflexivity.
      * destruct (transform_loop C self data l2 d1) as [tr2 r2].
        now rewrite app_assoc.
Qed.

(** Taking out a candidate that never touches the accumulator leaves the
    outcome of the loop as it is. *)
Lemma transform_loop_drop (self : HistSplitter) (data : odict)
  (l1 l2 : list string) (feature : string) (divided : odict) :
  (forall d, outcome (transform_feature C self data d feature) = inr d) ->
  outcome (transform_loop C self data (l1 ++ feature :: l2) divided) =
  outcome (transform_loop C self data (l1 ++ l2) divided).
Proof.
  intros Hskip. rewrite !transform_loop_app, !outcome_bind.
  destruct (outcome (transform_loop C self data l1 divided)) as [e|d];
    [reflexivity|].
  simpl transform_loop. rewrite outcome_bind, Hskip. reflexivity.
Qed.

Lemma transform_on_outcome (self : HistSplitter) (l : list string)
  (data : odict) (ds : Datastore Hist) :
  outcome (transform_on C self l data ds) =
  match outcome (transform_loop C self data l []) with
  | inl e => inl e
  | inr divided =>
      match outcome (transform_frames C self (Dict.keys divided) divided)
      with
      | inl e => inl e
      | inr tables =>
          inr (Dict.set string_dec self.(store_key) (ODict tables) ds)
      end
  end.
Proof.
  unfold transform_on. rewrite outcome_bind.
  destruct (outcome (transform_loop C self data l [])) as [e|d];
    [reflexivity|].
  rewrite outcome_bind.
  destruct (outcome (transform_frames C self (Dict.keys d) d));
    reflexivity.
Qed.

Lemma transform_on_drop (self : HistSplitter) (data : odict)
  (l1 l2 : list string) (feature : string) (ds : Datastore Hist) :
  (forall d, outcome (transform_feature C self data d feature) = inr d) ->
  outcome (transform_on C self (l1 ++ feature :: l2) data ds) =
  outcome (transform_on C self (l1 ++ l2) data ds).
Proof.
  intros Hskip. rewrite !transform_on_outcome.
  now rewrite (transform_loop_drop self data l1 l2 feature [] Hskip).
Qed.

(** Every call the loop records comes from one of its candidates. *)
Lemma transform_loop_calls (self : HistSplitter) (data : odict)
  (l : list string) (divided : odict) h sk ct x y fl :
  In (CallSplit h sk ct x y fl)
     (trace (transform_loop C self data l divided)) ->
  exists feature,
    In feature l
    /\ Dict.get Key_eq_dec (KStr feature) data = Some h
    /\ splittable C h feature
    /\ sk = self.(short_keys)
    /\ ct = temporal C self h feature
    /\ x = xname_of feature
    /\ y = yname_of feature
    /\ fl = self.(filter_empty_split_hists).
Proof.
  revert divided. induction l as [|f l IH]; intros divided; simpl.
  - intros [].
  - rewrite trace_bind. intros HIn. apply in_app_or in HIn.
    destruct HIn as [HIn|HIn].
    + apply transform_feature_calls in HIn.
      destruct HIn as (H1 & H2 & _ & H3).
      exists f. split; [now left|]. tauto.
    + destruct (outcome (transform_feature C self data divided f))
        as [e|d]; [contradiction|].
      apply IH in HIn. destruct HIn as (g & Hg & Hrest).
      exists g. split; [now right | exact Hrest].
Qed.

(* ----------------------------------------------------------------- *)
(** *** The conversion to tables *)

Lemma nodup_move_last {A} (a : A) (l : list A) :
  NoDup (a :: l) -> NoDup (l ++ [a]).
Proof.
  intros H. eapply Permutation_NoDup; [|exact H].
  apply Permutation_cons_append.
Qed.

(** Popping a key and assigning it again moves it to the end; after the
    whole loop the dictionary is in its first order, every value
    converted. *)
Lemma transform_frames_eq (self : HistSplitter) (rest done : odict) :
  NoDup (Dict.keys (rest ++ done)) ->
  transform_frames C self (Dict.keys rest) (rest ++ done) =
  ([], match tables_of C self rest with
       | inl e => inl e
       | inr r => inr (done ++ r)
       end).
Proof.
  revert done. induction rest as [|[k v] rest IH]; intros done ND.
  - simpl. now rewrite app_nil_r.
  - simpl. destruct (Key_eq_dec k k) as [_|n]; [|congruence].
    unfold to_table.
    destruct (pd_DataFrame C v) as [e|df]; [reflexivity|].
    simpl. destruct (set_index df (KStr self.(index_col))) as [e|tbl];
      [reflexivity|].
    simpl. simpl in ND. inversion ND as [|? ? Hnotin ND']; subst.
    rewrite set_absent by exact Hnotin.
    rewrite <- app_assoc. rewrite IH.
    + destruct (tables_of C self rest) as [e|r]; [reflexivity|].
      now rewrite <- app_assoc.
    + rewrite app_assoc. unfold Dict.keys. rewrite map_app. simpl.
      apply nodup_move_last. exact ND.
Qed.

Lemma transform_frames_tables (self : HistSplitter) (d : odict) :
  NoDup (Dict.keys d) ->
  transform_frames C self (Dict.keys d) d = ([], tables_of C self d).
Proof.
  intros ND. pose proof (transform_frames_eq self d []) as H.
  rewrite app_nil_r in H. rewrite (H ND).
  destruct (tables_of C self d); reflexivity.
Qed.

Lemma tables_of_keys (self : HistSplitter) (d t : odict) :
  tables_of C self d = inr t -> Dict.keys t = Dict.keys d.
Proof.
  revert t. induction d as [|[k v] r IH]; intros t; simpl.
  - intros H. inversion H. reflexivity.
  - destruct (to_table C self v) as [e|tbl]; [discriminate|].
    destruct (tables_of C self r) as [e|r']; [discriminate|].
    intros H. inversion H; subst. simpl. f_equal. now apply IH.
Qed.

Lemma tables_of_get (self : HistSplitter) (d t : odict) (k : Key) (v : obj) :
  tables_of C self d = inr t ->
  Dict.get Key_eq_dec k d = Some v ->
  exists tbl, to_table C self v = inr tbl
              /\ Dict.get Key_eq_dec k t = Some tbl.
Proof.
  revert t. induction d as [|[k' v'] r IH]; intros t; simpl.
  - discriminate.
  - destruct (to_table C self v') as [e|tbl] eqn:Et; [discriminate|].
    destruct (tables_of C self r) as [e|r']; [discriminate|].
    intros H. inversion H; subst. simpl.
    destruct (Key_eq_dec k k') as [E|N].
    + intros Hv. inversion Hv; subst. eauto.
    + intros Hv. now apply IH.
Qed.

(** Every value of a converted dictionary is a table. *)
Lemma tables_of_frames (self : HistSplitter) (d t : odict) :
  tables_of C self d = inr t ->
  Forall (fun kv => exists f, snd kv = OFrame f) t.
Proof.
  revert t. induction d as [|[k v] r IH]; intros t; simpl.
  - intros H. inversion H. constructor.
  - unfold to_table at 1.
    destruct (pd_DataFrame C v) as [e|df]; [discriminate|].
    destruct (set_index df (KStr self.(index_col))) as [e|tbl];
      [discriminate|].
    destruct (tables_of C self r) as [e|r']; [discriminate|].
    intros H. inversion H; subst. constructor; [simpl; eauto | auto].
Qed.

(* ----------------------------------------------------------------- *)
(** *** The table of a group *)

Lemma as_records_records (self : HistSplitter) (split : odict) :
  as_records (records self split) =
  Some (map (fun kh => record self (fst kh) (snd kh)) split).
Proof.
  unfold records.
  induction split as [|[k h] r IH]; [reflexivity|].
  cbn [map as_records]. now rewrite IH.
Qed.

Lemma add_label_present (acc : list Key) (k : Key) :
  In k acc -> add_label acc k = acc.
Proof.
  intros H. unfold add_label. destruct (in_dec Key_eq_dec k acc); tauto.
Qed.

Lemma add_labels_present (ks acc : list Key) :
  incl ks acc -> fold_left add_label ks acc = acc.
Proof.
  revert acc. induction ks as [|k ks IH]; intros acc H; simpl.
  - reflexivity.
  - rewrite add_label_present by (apply H; now left).
    apply IH. intros x Hx. apply H. now right.
Qed.

Lemma labels_same (ks acc : list Key) (recs : list odict) :
  incl ks acc ->
  Forall (fun r => Dict.keys r = ks) recs ->
  fold_left (fun a r => fold_left add_label (Dict.keys r) a) recs acc = acc.
Proof.
  intros Hincl HF. induction HF as [|r recs Hr HF IH]; simpl.
  - reflexivity.
  - rewrite Hr, add_labels_present by exact Hincl. exact IH.
Qed.

Lemma labels_of_uniform (ks : list Key) (r : odict) (recs : list odict) :
  fold_left add_label ks [] = ks ->
  Forall (fun r => Dict.keys r = ks) (r :: recs) ->
  labels_of (r :: recs) = ks.
Proof.
  intros Hks H. apply Forall_cons_iff in H. destruct H as [Hr Hrecs].
  unfold labels_of. simpl. rewrite Hr, Hks.
  apply labels_same with (ks := ks); [apply incl_refl | exact Hrecs].
Qed.

Lemma record_eq (self : HistSplitter) (k : Key) (h : obj) :
  record self k h =
  if string_dec self.(hist_col) self.(index_col)
  then [(KStr self.(index_col), OContainer h)]
  else [(KStr self.(index_col), OKey k);
        (KStr self.(hist_col), OContainer h)].
Proof.
  unfold record. simpl.
  destruct (Key_eq_dec (KStr self.(hist_col)) (KStr self.(index_col)))
    as [E|N];
  destruct (string_dec self.(hist_col) self.(index_col)) as [E'|N'];
    try reflexivity; congruence.
Qed.

Lemma labels_of_records (self : HistSplitter) (split : odict) :
  split <> [] ->
  labels_of (map (fun kh => record self (fst kh) (snd kh)) split) =
  if string_dec self.(hist_col) self.(index_col)
  then [KStr self.(index_col)]
  else [KStr self.(index_col); KStr self.(hist_col)].
Proof.
  intros Hne.
  set (ks := if string_dec self.(hist_col) self.(index_col)
             then [KStr self.(index_col)]
             else [KStr self.(index_col); KStr self.(hist_col)]).
  assert (HF : Forall (fun r => Dict.keys r = ks)
                 (map (fun kh => record self (fst kh) (snd kh)) split)).
  { apply Forall_forall. intros r Hr. apply in_map_iff in Hr.
    destruct Hr as ([k h] & <- & _). simpl. rewrite record_eq. subst ks.
    destruct (string_dec _ _); reflexivity. }
  destruct split as [|kh split]; [congruence|].
  cbn [map] in *. apply labels_of_uniform; [|exact HF].
  subst ks. destruct (string_dec _ _) as [E|N]; [reflexivity|].
  cbn [fold_left]. unfold add_label at 2. cbn [in_dec list_rec list_rect app].
  unfold add_label. cbn [in_dec list_rec list_rect].
  destruct (Key_eq_dec _ _) as [E|_]; [congruence | reflexivity].
Qed.

(** [pd.DataFrame(records).set_index(index_col)] on the records of a
    projection that is not empty. *)
Lemma to_table_records (self : HistSplitter) (split : odict) :
  split <> [] ->
  to_table C self (OList (records self split)) =
  inr (OFrame (split_table self split)).
Proof.
  intros Hne. unfold to_table, pd_DataFrame.
  rewrite as_records_records. unfold frame_of_records, set_index.
  cbn [columns rows]. rewrite (labels_of_records self split Hne).
  unfold split_table.
  destruct (string_dec self.(hist_col) self.(index_col)) as [E|N].
  - cbn [position]. destruct (Key_eq_dec _ _) as [_|n]; [|congruence].
    rewrite !map_map. do 2 f_equal. f_equal.
    apply map_ext. intros [k h]. cbn [map nth fst snd]. unfold cell.
    rewrite record_eq. destruct (string_dec _ _); [|congruence].
    cbn [Dict.get]. destruct (Key_eq_dec _ _); [reflexivity | congruence].
  - cbn [position]. destruct (Key_eq_dec _ _) as [_|n]; [|congruence].
    rewrite !map_map. do 2 f_equal. f_equal.
    + apply map_ext. intros [k h]. cbn [map nth fst snd]. unfold cell.
      rewrite record_eq. destruct (string_dec _ _); [congruence|].
      cbn [Dict.get]. destruct (Key_eq_dec _ _); [reflexivity | congruence].
    + apply map_ext. intros [k h]. cbn [map fst snd]. unfold drop_nth, cell.
      cbn [firstn skipn app].
      rewrite record_eq. destruct (string_dec _ _); [congruence|].
      cbn [Dict.get].
      destruct (Key_eq_dec (KStr self.(hist_col)) (KStr self.(index_col)));
        [congruence|].
      destruct (Key_eq_dec _ _); [reflexivity | congruence].
Qed.

(* ----------------------------------------------------------------- *)
(** *** The accumulator has one entry per key *)

Lemma set_nodup (k : Key) (v : obj) (d : odict) :
  NoDup (Dict.keys d) -> NoDup (Dict.keys (Dict.set Key_eq_dec k v d)).
Proof.
  intros ND. rewrite keys_set.
  destruct (in_dec Key_eq_dec k (Dict.keys d)) as [I|N]; [exact ND|].
  apply nodup_move_last. now constructor.
Qed.

Lemma update_nodup (src d : odict) :
  NoDup (Dict.keys d) -> NoDup (Dict.keys (Dict.update Key_eq_dec d src)).
Proof.
  revert d. induction src as [|[k v] src IH]; intros d ND.
  - exact ND.
  - rewrite update_cons. apply IH. now apply set_nodup.
Qed.

Lemma update_divided_nodup (self : HistSplitter) (d split : odict)
  (yname : string) :
  NoDup (Dict.keys d) ->
  NoDup (Dict.keys (update_divided self d split yname)).
Proof.
  intros ND. unfold update_divided. destruct self.(flatten_output).
  - now apply update_nodup.
  - now apply set_nodup.
Qed.

Lemma transform_feature_nodup (self : HistSplitter) (data d d' : odict)
  (feature : string) :
  NoDup (Dict.keys d) ->
  outcome (transform_feature C self data d feature) = inr d' ->
  NoDup (Dict.keys d').
Proof.
  intros ND. rewrite transform_feature_eq.
  destruct (Dict.get Key_eq_dec (KStr feature) data) as [hist|];
    [|discriminate].
  destruct (C.(n_dim) hist <=? 1)%Z;
    [intros H; inversion H; subst; exact ND|].
  destruct (negb _); [intros H; inversion H; subst; exact ND|].
  destruct (Dict.mem _ _ _); [intros H; inversion H; subst; exact ND|].
  destruct (is_empty _); intros H; inversion H; subst.
  - exact ND.
  - now apply update_divided_nodup.
Qed.

Lemma transform_loop_nodup (self : HistSplitter) (data : odict)
  (l : list string) (d d' : odict) :
  NoDup (Dict.keys d) ->
  outcome (transform_loop C self data l d) = inr d' ->
  NoDup (Dict.keys d').
Proof.
  revert d. induction l as [|f l IH]; intros d ND; simpl.
  - intros H. inversion H; subst. exact ND.
  - rewrite outcome_bind.
    destruct (outcome (transform_feature C self data d f)) as [e|d1] eqn:E;
      [discriminate|].
    apply IH. eapply transform_feature_nodup; eauto.
Qed.

(* ----------------------------------------------------------------- *)
(** *** A run of [transform] that returns *)

Lemma get_datastore_object_run (ds : Datastore Hist) (key : string)
  (tr : list (Event Hist)) (data : odict) :
  get_datastore_object ds key = (tr, inr data) <->
  tr = [] /\ Dict.get string_dec key ds = Some (ODict data).
Proof.
  unfold get_datastore_object.
  destruct (Dict.get string_dec key ds) as [[]|]; simpl;
    split; try (intros H; inversion H; subst; auto; fail);
    try (intros [_ H]; discriminate).
  intros [-> H]. inversion H. reflexivity.
Qed.

Lemma transform_on_run (self : HistSplitter) (l : list string)
  (data : odict) (ds ds' : Datastore Hist) (tr : list (Event Hist)) :
  transform_on C self l data ds = (tr, inr ds') ->
  exists divided tables,
    transform_loop C self data l [] = (tr, inr divided)
    /\ NoDup (Dict.keys divided)
    /\ tables_of C self divided = inr tables
    /\ ds' = Dict.set string_dec self.(store_key) (ODict tables) ds.
Proof.
  unfold transform_on.
  destruct (transform_loop C self data l []) as [tr1 [e|d]] eqn:El;
    [discriminate|].
  assert (ND : NoDup (Dict.keys d)).
  { apply transform_loop_nodup
      with (self := self) (data := data) (l := l) (d := []);
      [constructor|].
    now rewrite El. }
  cbn [bind]. rewrite (transform_frames_tables self d ND).
  destruct (tables_of C self d) as [e|tables] eqn:Et; cbn [bind ret];
    [discriminate|].
  intros H. inversion H; subst. exists d, tables.
  rewrite !app_nil_r. auto.
Qed.

Lemma transform_run (self : HistSplitter) (ds ds' : Datastore Hist)
  (tr : list (Event Hist)) :
  transform C self ds = (tr, inr ds') ->
  exists data tr1,
    Dict.get string_dec self.(read_key) ds = Some (ODict data)
    /\ tr = Log Info (MsgSplitting self.(read_key) self.(store_key)) :: tr1
    /\ transform_on C self (C.(get_features) self (Dict.keys data)) data ds
       = (tr1, inr ds').
Proof.
  unfold transform. cbn [bind emit].
  destruct (get_datastore_object ds self.(read_key)) as [tr0 [e|data]] eqn:Eg.
  - cbn. discriminate.
  - apply get_datastore_object_run in Eg. destruct Eg as [-> Hget].
    cbn [bind].
    destruct (transform_on C self _ data ds) as [tr1 r] eqn:Eon.
    cbn. intros H. inversion H; subst. exists data, tr1. auto.
Qed.

(** The run, the other way round. *)
Lemma transform_of_run (self : HistSplitter) (ds : Datastore Hist)
  (data : odict) :
  Dict.get string_dec self.(read_key) ds = Some (ODict data) ->
  transform C self ds =
  (Log Info (MsgSplitting self.(read_key) self.(store_key))
   :: trace (transform_on C self (C.(get_features) self (Dict.keys data))
               data ds),
   outcome (transform_on C self (C.(get_features) self (Dict.keys data))
              data ds)).
Proof.
  intros Hget. unfold transform, get_datastore_object. rewrite Hget.
  cbn [bind emit ret].
  destruct (transform_on C self _ data ds) as [tr1 r]. reflexivity.
Qed.

(* ----------------------------------------------------------------- *)
(** *** Nested mode: the accumulator is the list of groups *)

Lemma accumulated_app (tr1 tr2 : list (Event Hist)) :
  accumulated C (tr1 ++ tr2) = accumulated C tr1 ++ accumulated C tr2.
Proof.
  unfold accumulated. now rewrite flat_map_app, filter_app.
Qed.

Lemma accumulated_nonempty (tr : list (Event Hist)) :
  Forall (fun g => snd g <> []) (accumulated C tr).
Proof.
  apply Forall_forall. intros g Hg. unfold accumulated in Hg.
  apply filter_In in Hg. destruct Hg as [_ Hg].
  destruct (snd g); [discriminate | discriminate].
Qed.

Lemma group_entry_keys (self : HistSplitter) (gs : list (string * odict)) :
  Dict.keys (map (group_entry self) gs) = map KStr (map fst gs).
Proof.
  unfold Dict.keys. rewrite !map_map. reflexivity.
Qed.

Lemma nested_feature (self : HistSplitter) (data : odict) (feature : string)
  (gs : list (string * odict)) (tr : list (Event Hist)) (d' : odict) :
  self.(flatten_output) = false ->
  NoDup (map fst gs) ->
  transform_feature C self data (map (group_entry self) gs) feature
  = (tr, inr d') ->
  d' = map (group_entry self) (gs ++ accumulated C tr)
  /\ NoDup (map fst (gs ++ accumulated C tr)).
Proof.
  intros Hflat ND. rewrite transform_feature_eq.
  destruct (Dict.get Key_eq_dec (KStr feature) data) as [hist|];
    [|discriminate].
  destruct (C.(n_dim) hist <=? 1)%Z.
  { intros H; inversion H; subst. cbn. now rewrite app_nil_r. }
  destruct (negb _).
  { intros H; inversion H; subst. cbn. now rewrite app_nil_r. }
  destruct (Dict.mem _ _ _) eqn:Em.
  { intros H; inversion H; subst. cbn. now rewrite app_nil_r. }
  destruct (is_empty _) eqn:Ee; intros H; inversion H; subst; clear H.
  - unfold accumulated. cbn [flat_map projection_of app filter snd].
    fold (projection C self hist feature). rewrite Ee. cbn.
    now rewrite app_nil_r.
  - unfold accumulated. cbn [flat_map projection_of app filter snd].
    fold (projection C self hist feature). rewrite Ee. cbn [negb].
    apply mem_false_iff in Em. unfold update_divided. rewrite Hflat.
    rewrite set_absent by exact Em. split.
    + rewrite map_app. reflexivity.
    + rewrite map_app. cbn [map fst]. apply nodup_move_last.
      constructor; [|exact ND].
      intros Hin. apply Em. rewrite group_entry_keys.
      now apply in_map.
Qed.

Lemma nested_loop (self : HistSplitter) (data : odict) (l : list string)
  (gs : list (string * odict)) (tr : list (Event Hist)) (d' : odict) :
  self.(flatten_output) = false ->
  NoDup (map fst gs) ->
  transform_loop C self data l (map (group_entry self) gs) = (tr, inr d') ->
  d' = map (group_entry self) (gs ++ accumulated C tr)
  /\ NoDup (map fst (gs ++ accumulated C tr)).
Proof.
  intros Hflat. revert gs tr. induction l as [|f l IH]; intros gs tr ND.
  - cbn. intros H; inversion H; subst. cbn. now rewrite app_nil_r.
  - cbn [transform_loop].
    destruct (transform_feature C self data (map (group_entry self) gs) f)
      as [tr1 [e|d1]] eqn:E1; [discriminate|].
    cbn [bind].
    destruct (nested_feature self data f gs tr1 d1 Hflat ND E1) as [-> ND1].
    destruct (transform_loop C self data l _) as [tr2 r2] eqn:E2.
    intros H; inversion H; subst; clear H.
    destruct (IH _ _ ND1 E2) as [-> ND2].
    rewrite accumulated_app, app_assoc. auto.
Qed.

Lemma tables_of_groups (self : HistSplitter) (gs : list (string * odict)) :
  Forall (fun g => snd g <> []) gs ->
  tables_of C self (map (group_entry self) gs)
  = inr (map (group_table self) gs).
Proof.
  intros HF. induction HF as [|[y sp] gs Hg HF IH]; [reflexivity|].
  cbn [map tables_of group_entry fst snd] in *.
  rewrite (to_table_records self sp Hg), IH. reflexivity.
Qed.

(** In nested mode the output of a run is the list of the tables of the
    groups its trace accumulated, one per [yname]. *)
Lemma nested_output (self : HistSplitter) (l : list string) (data : odict)
  (ds ds' : Datastore Hist) (tr : list (Event Hist)) :
  self.(flatten_output) = false ->
  transform_on C self l data ds = (tr, inr ds') ->
  NoDup (map fst (accumulated C tr))
  /\ ds' = Dict.set string_dec self.(store_key)
             (ODict (map (group_table self) (accumulated C tr))) ds.
Proof.
  intros Hflat Hrun. apply transform_on_run in Hrun.
  destruct Hrun as (d & tables & Hloop & _ & Htab & ->).
  destruct (nested_loop self data l [] tr d Hflat (NoDup_nil _) Hloop)
    as [-> ND].
  cbn [app] in *. split; [exact ND|].
  rewrite tables_of_groups in Htab by apply accumulated_nonempty.
  inversion Htab. reflexivity.
Qed.

(* ----------------------------------------------------------------- *)
(** *** Traces *)

Lemma transform_frames_trace (self : HistSplitter) (keys : list Key)
  (d : odict) :
  trace (transform_frames C self keys d) = [].
Proof.
  revert d. induction keys as [|k ks IH]; intros d; cbn [transform_frames].
  - reflexivity.
  - destruct (Dict.pop Key_eq_dec k d) as [[v d']|]; [|reflexivity].
    rewrite trace_bind. unfold lift at 1 2. cbn [trace outcome fst snd app].
    destruct (pd_DataFrame C v) as [e|df]; [reflexivity|].
    rewrite trace_bind. unfold lift. cbn [trace outcome fst snd app].
    destruct (set_index df (KStr self.(index_col))) as [e|tbl];
      [reflexivity|].
    apply IH.
Qed.

Lemma transform_on_trace (self : HistSplitter) (l : list string)
  (data : odict) (ds : Datastore Hist) :
  trace (transform_on C self l data ds)
  = trace (transform_loop C self data l []).
Proof.
  unfold transform_on. rewrite trace_bind.
  destruct (outcome (transform_loop C self data l [])) as [e|d].
  - now rewrite app_nil_r.
  - rewrite trace_bind, transform_frames_trace.
    destruct (outcome (transform_frames C self (Dict.keys d) d));
      cbn; now rewrite app_nil_r.
Qed.

Lemma transform_trace (self : HistSplitter) (ds : Datastore Hist) :
  trace (transform C self ds) =
  Log Info (MsgSplitting self.(read_key) self.(store_key))
  :: match Dict.get string_dec self.(read_key) ds with
     | Some (ODict data) =>
         trace (transform_loop C self data
                  (C.(get_features) self (Dict.keys data)) [])
     | _ => []
     end.
Proof.
  destruct (Dict.get string_dec self.(read_key) ds) as [o|] eqn:Eg.
  2:{ unfold transform, get_datastore_object. rewrite Eg. reflexivity. }
  destruct o; try (unfold transform, get_datastore_object; rewrite Eg;
                   reflexivity).
  rewrite (transform_of_run self ds d Eg). cbn [trace fst].
  now rewrite transform_on_trace.
Qed.

Lemma accumulated_in (tr : list (Event Hist)) (y : string) (sp : odict) :
  In (y, sp) (accumulated C tr) ->
  sp <> []
  /\ exists h sk ct x fl,
       In (CallSplit h sk ct x y fl) tr
       /\ sp = C.(split_hist_along_first_dimension) h sk ct x y fl.
Proof.
  unfold accumulated. intros H. apply filter_In in H.
  destruct H as [H Hne]. cbn [snd] in Hne. split.
  - destruct sp; [discriminate | discriminate].
  - apply in_flat_map in H. destruct H as (ev & Hev & Hin).
    destruct ev as [lvl msg | h sk ct x y' fl]; cbn in Hin; [contradiction|].
    destruct Hin as [E|[]]. inversion E; subst.
    exists h, sk, ct, x, fl. auto.
Qed.

(** Every accumulated group is the projection of a candidate that passed
    the guards. *)
Lemma accumulated_from_candidate (self : HistSplitter) (data : odict)
  (l : list string) (divided : odict) (y : string) (sp : odict) :
  In (y, sp) (accumulated C (trace (transform_loop C self data l divided))) ->
  exists feature hist,
    In feature l
    /\ Dict.get Key_eq_dec (KStr feature) data = Some hist
    /\ splittable C hist feature
    /\ y = yname_of feature
    /\ sp = projection C self hist feature
    /\ sp <> [].
Proof.
  intros H. apply accumulated_in in H.
  destruct H as (Hne & h & sk & ct & x & fl & Hin & ->).
  apply transform_loop_calls in Hin.
  destruct Hin as (f & Hf & Hget & Hsp & -> & -> & -> & -> & ->).
  exists f, h. repeat split; auto; apply Hsp.
Qed.

Lemma group_table_get_none (self : HistSplitter)
  (gs : list (string * odict)) (y : string) :
  ~ In y (map fst gs) ->
  Dict.get Key_eq_dec (KStr y) (map (group_table self) gs) = None.
Proof.
  intros H. apply get_none_iff. intros Hin. apply H.
  unfold Dict.keys in Hin. rewrite map_map in Hin.
  apply in_map_iff in Hin. destruct Hin as (g & E & Hg).
  cbn in E. inversion E; subst. now apply in_map.
Qed.

(** A skipped candidate leaves no group of its own: in nested mode the
    output has no entry under its [yname] unless another candidate derives
    the same one. *)
Lemma skipped_no_group (self : HistSplitter) (data : odict)
  (l : list string) (feature : string) (hist : obj)
  (ds ds' : Datastore Hist) (tr : list (Event Hist)) :
  Dict.get Key_eq_dec (KStr feature) data = Some hist ->
  skipped C self hist feature ->
  self.(flatten_output) = false ->
  (forall c, In c l -> c <> feature -> yname_of c <> yname_of feature) ->
  transform_on C self l data ds = (tr, inr ds') ->
  exists out,
    Dict.get string_dec self.(store_key) ds' = Some (ODict out)
    /\ Dict.get Key_eq_dec (KStr (yname_of feature)) out = None.
Proof.
  intros Hget Hskip Hflat Hother Hrun.
  destruct (nested_output self l data ds ds' tr Hflat Hrun) as [_ ->].
  eexists. split; [apply get_set_same|].
  apply group_table_get_none. intros Hin.
  apply in_map_iff in Hin. destruct Hin as ([y sp] & Ey & Hg).
  cbn in Ey. subst y.
  assert (Htr : tr = trace (transform_loop C self data l [])).
  { rewrite <- transform_on_trace with (ds := ds). now rewrite Hrun. }
  rewrite Htr in Hg. apply accumulated_from_candidate in Hg.
  destruct Hg as (c & h & Hc & Hgetc & [Hdim Hlen] & Hy & Hsp & Hne).
  destruct (string_dec c feature) as [E|N].
  - subst c. rewrite Hget in Hgetc. inversion Hgetc; subst h.
    destruct Hskip as [H|[H|H]]; [lia | congruence | congruence].
  - apply (Hother c Hc N). congruence.
Qed.

Lemma in_list_iff (x : string) (l : list string) :
  in_list x l = true <-> In x l.
Proof.
  unfold in_list. rewrite existsb_exists. split.
  - intros (y & Hy & E). apply String.eqb_eq in E. now subst.
  - intros H. exists x. split; [exact H | apply String.eqb_refl].
Qed.

Lemma nodup_map_KStr (l : list string) : NoDup l -> NoDup (map KStr l).
Proof.
  induction 1 as [|x l Hx ND IH]; cbn; constructor; [|exact IH].
  intros Hin. apply in_map_iff in Hin. destruct Hin as (y & E & Hy).
  inversion E; subst. contradiction.
Qed.

Lemma group_table_get (self : HistSplitter) (gs : list (string * odict))
  (y : string) (sp : odict) :
  NoDup (map fst gs) ->
  In (y, sp) gs ->
  Dict.get Key_eq_dec (KStr y) (map (group_table self) gs)
  = Some (OFrame (split_table self sp)).
Proof.
  intros ND Hin. apply in_get_nodup.
  - unfold Dict.keys. rewrite map_map. cbn [group_table fst].
    rewrite <- map_map with (f := fst) (g := KStr).
    now apply nodup_map_KStr.
  - change (KStr y, OFrame (split_table self sp))
      with (group_table self (y, sp)).
    now apply in_map.
Qed.

Lemma split_table_index (self : HistSplitter) (split : odict) :
  index (split_table self split)
  = map (fun kh => cell (record self (fst kh) (snd kh))
                     (KStr self.(index_col))) split.
Proof.
  unfold split_table.
  destruct (string_dec self.(hist_col) self.(index_col)) as [E|N];
    cbn [index]; apply map_ext; intros [k h]; cbn [fst snd];
    unfold cell; rewrite record_eq;
    (destruct (string_dec _ _); [|try congruence]; try congruence);
    cbn [Dict.get]; (destruct (Key_eq_dec _ _); [reflexivity | congruence]).
Qed.

Lemma split_table_rows_length (self : HistSplitter) (split : odict) :
  List.length (rows (split_table self split)) = List.length split
  /\ List.length (index (split_table self split)) = List.length split.
Proof.
  unfold split_table. destruct (string_dec _ _); cbn [rows index];
    now rewrite !length_map.
Qed.

(* ----------------------------------------------------------------- *)
(** *** Runs that return *)

(** The loop raises only for a candidate that is no key of the input. *)
Lemma transform_loop_returns (self : HistSplitter) (data : odict)
  (l : list string) (divided : odict) :
  Forall (fun f => exists hist,
            Dict.get Key_eq_dec (KStr f) data = Some hist) l ->
  exists tr d', transform_loop C self data l divided = (tr, inr d').
Proof.
  intros HF. revert divided.
  induction HF as [|f l (hist & Hget) HF IH]; intros divided.
  - exists [], divided. reflexivity.
  - cbn [transform_loop].
    assert (Hstep : exists tr1 d1,
               transform_feature C self data divided f = (tr1, inr d1)).
    { rewrite transform_feature_eq, Hget.
      destruct (C.(n_dim) hist <=? 1)%Z; [eauto|].
      destruct (negb _); [eauto|].
      destruct (Dict.mem _ _ _); [eauto|].
      destruct (is_empty _); eauto. }
    destruct Hstep as (tr1 & d1 & ->). cbn [bind].
    destruct (IH d1) as (tr2 & d2 & ->). eauto.
Qed.

Lemma nested_transform_returns (self : HistSplitter) (ds : Datastore Hist)
  (data : odict) :
  self.(flatten_output) = false ->
  Dict.get string_dec self.(read_key) ds = Some (ODict data) ->
  Forall (fun f => exists hist,
            Dict.get Key_eq_dec (KStr f) data = Some hist)
         (C.(get_features) self (Dict.keys data)) ->
  exists tr ds', transform C self ds = (tr, inr ds').
Proof.
  intros Hflat Hread Hall.
  destruct (transform_loop_returns self data _ [] Hall) as (tr1 & d & Hloop).
  destruct (nested_loop self data _ [] tr1 d Hflat (NoDup_nil _) Hloop)
    as [Hd ND]. cbn [app] in Hd, ND.
  assert (NDk : NoDup (Dict.keys d)).
  { apply transform_loop_nodup
      with (self := self) (data := data)
           (l := C.(get_features) self (Dict.keys data)) (d := []);
      [constructor | now rewrite Hloop]. }
  rewrite (transform_of_run self ds data Hread).
  rewrite transform_on_outcome, Hloop. cbn [outcome snd].
  rewrite (transform_frames_tables self d NDk). cbn [snd].
  rewrite Hd, tables_of_groups by apply accumulated_nonempty.
  cbn [outcome snd]. eauto.
Qed.

(* ================================================================= *)
(** ** Properties of the splitter *)

(** C1. Constructing a [HistSplitter] with [flatten_output] and
    [short_keys] both true raises the configuration error, from the
    constructor itself: no instance comes to exist on which [transform]
    could run.  Every other combination of the two flags yields the
    instance with the attributes as passed. *)
Theorem init_guards_flatten_against_short_keys
  (read store : string) (feats ignore : option (list string))
  (begins : string) (axes flatten short : bool)
  (stamps : option (list string)) (icol hcol : string) (filter : bool) :
  HistSplitter_init read store feats ignore begins axes flatten short
    stamps icol hcol filter
  = if flatten && short
    then inl (RuntimeError
                "flatten_output requires short_keys attribute to be False.")
    else inr (mkHistSplitter read store (or_empty feats) (or_empty ignore)
                begins axes flatten short (or_empty stamps) icol hcol
                filter).
Proof.
  unfold HistSplitter_init, check_flags. cbn [flatten_output short_keys].
  destruct (flatten && short); reflexivity.
Qed.

(** C3. In nested mode [transform] returns as soon as the input mapping
    is there and holds the candidates, and the value under [store_key]
    maps the [yname] of every group the run accumulated to a table: the table [pd.DataFrame(records).set_index(index_col)] of the
    records [{index_col: bin, hist_col: sub-histogram}] of the projection
    of the candidate the group comes from, with one row per bin of that
    projection and in its order.  With distinct field names the index is
    the list of the bins of the projection, in order, and the rows hold
    the wrapped sub-histograms. *)
Theorem nested_tables_keep_bin_order (self : HistSplitter)
  (ds : Datastore Hist) (data : odict) :
  self.(flatten_output) = false ->
  Dict.get string_dec self.(read_key) ds = Some (ODict data) ->
  Forall (fun f => exists hist,
            Dict.get Key_eq_dec (KStr f) data = Some hist)
         (C.(get_features) self (Dict.keys data)) ->
  exists tr ds' out,
    transform C self ds = (tr, inr ds')
    /\ Dict.get string_dec self.(store_key) ds' = Some (ODict out)
    /\ out = map (group_table self) (accumulated C tr)
    /\ NoDup (map fst (accumulated C tr))
    /\ forall yname split,
         In (yname, split) (accumulated C tr) ->
         (exists feature hist,
            In feature (C.(get_features) self (Dict.keys data))
            /\ Dict.get Key_eq_dec (KStr feature) data = Some hist
            /\ yname = yname_of feature
            /\ split = projection C self hist feature)
         /\ Dict.get Key_eq_dec (KStr yname) out
            = Some (OFrame (split_table self split))
         /\ to_table C self (OList (records self split))
            = inr (OFrame (split_table self split))
         /\ index_name (split_table self split)
            = Some (KStr self.(index_col))
         /\ index (split_table self split)
            = map (fun kh => cell (record self (fst kh) (snd kh))
                               (KStr self.(index_col))) split
         /\ List.length (rows (split_table self split)) = List.length split
         /\ (self.(hist_col) <> self.(index_col) ->
             index (split_table self split)
             = map (fun kh => OKey (fst kh)) split
             /\ columns (split_table self split) = [KStr self.(hist_col)]
             /\ rows (split_table self split)
                = map (fun kh => [OContainer (snd kh)]) split).
Proof.
  intros Hflat Hread Hall.
  destruct (nested_transform_returns self ds data Hflat Hread Hall)
    as (tr & ds' & Hrun).
  destruct (transform_run self ds ds' tr Hrun)
    as (data' & tr1 & Hget & -> & Hon).
  rewrite Hread in Hget. inversion Hget; subst data'. clear Hget.
  exists (Log Info (MsgSplitting self.(read_key) self.(store_key)) :: tr1),
    ds'.
  change (accumulated C (Log Info (MsgSplitting self.(read_key)
                                     self.(store_key)) :: tr1))
    with (accumulated C tr1).
  destruct (nested_output self _ data ds ds' tr1 Hflat Hon) as [ND Hds'].
  exists (map (group_table self) (accumulated C tr1)).
  split; [exact Hrun|]. split; [rewrite Hds'; apply get_set_same|].
  split; [reflexivity|]. split; [exact ND|].
  intros y sp Hin.
  assert (Hne : sp <> []) by (apply accumulated_in in Hin; tauto).
  split.
  { assert (Htr : tr1 = trace (transform_loop C self data
                                 (C.(get_features) self (Dict.keys data)) [])).
    { rewrite <- transform_on_trace with (ds := ds). now rewrite Hon. }
    rewrite Htr in Hin. apply accumulated_from_candidate in Hin.
    destruct Hin as (f & h & Hf & Hgf & _ & Hy & Hsp & _).
    exists f, h. auto. }
  split; [now apply group_table_get|].
  split; [now apply to_table_records|].
  split; [unfold split_table; destruct (string_dec _ _); reflexivity|].
  split; [apply split_table_index|].
  split; [apply split_table_rows_length|].
  intros Hcols. unfold split_table.
  destruct (string_dec _ _); [contradiction|]. auto.
Qed.

(** C5, amended.  A candidate whose number of axis tokens differs from
    the dimension its container reports is passed over and the
    accumulator stays as it was.  With a dimension of 2 or more the
    message is the error of the consistency check; with a dimension of at
    most 1 the candidate has already left at the first guard, with its
    debug note.  No projection is invoked.  The pass goes on: its outcome
    is the outcome of the pass without that candidate, and in nested mode
    the output has no entry under its [yname] unless another candidate
    derives the same one. *)
Theorem inconsistent_feature_is_skipped (self : HistSplitter)
  (data : odict) (feature : string) (hist : obj) :
  Dict.get Key_eq_dec (KStr feature) data = Some hist ->
  Z.of_nat (List.length (split_colon feature)) <> C.(n_dim) hist ->
  (forall divided,
     transform_feature C self data divided feature
     = ([Log Debug (MsgNowSplitting feature);
         if (C.(n_dim) hist <=? 1)%Z
         then Log Debug (MsgNotSplittable feature)
         else Log Error (MsgInconsistent feature (C.(n_dim) hist)
                           (List.length (split_colon feature)))],
        inr divided))
  /\ (forall l1 l2 ds,
        outcome (transform_on C self (l1 ++ feature :: l2) data ds)
        = outcome (transform_on C self (l1 ++ l2) data ds))
  /\ (forall l ds tr ds',
        self.(flatten_output) = false ->
        (forall c, In c l -> c <> feature ->
                   yname_of c <> yname_of feature) ->
        transform_on C self l data ds = (tr, inr ds') ->
        exists out,
          Dict.get string_dec self.(store_key) ds' = Some (ODict out)
          /\ Dict.get Key_eq_dec (KStr (yname_of feature)) out = None).
Proof.
  intros Hget Hne.
  assert (Hskip : skipped C self hist feature) by (right; left; exact Hne).
  split; [|split].
  - intros divided. rewrite transform_feature_eq, Hget.
    destruct (C.(n_dim) hist <=? 1)%Z; [reflexivity|].
    destruct (negb _) eqn:E; [reflexivity|].
    apply negb_false_iff, Z.eqb_eq in E. contradiction.
  - intros l1 l2 ds. apply transform_on_drop. intros d.
    now apply skipped_outcome with (hist := hist).
  - intros l ds tr ds' Hflat Hother Hrun.
    now apply skipped_no_group
      with (data := data) (l := l) (hist := hist) (ds := ds) (tr := tr).
Qed.

(** C6. A candidate whose histogram has dimension at most 1 leaves the
    loop body at its first guard: the only events are the two debug
    messages, so the name is not split, no projection is invoked and no
    error is logged or raised; the accumulator is handed on unchanged.
    The outcome of the pass is that of the pass without the candidate, and
    in nested mode the output has no entry under its derived group unless
    another candidate derives the same one. *)
Theorem low_dimension_is_skipped (self : HistSplitter)
  (data : odict) (feature : string) (hist : obj) :
  Dict.get Key_eq_dec (KStr feature) data = Some hist ->
  (C.(n_dim) hist <= 1)%Z ->
  (forall divided,
     transform_feature C self data divided feature
     = ([Log Debug (MsgNowSplitting feature);
         Log Debug (MsgNotSplittable feature)], inr divided))
  /\ (forall l1 l2 ds,
        outcome (transform_on C self (l1 ++ feature :: l2) data ds)
        = outcome (transform_on C self (l1 ++ l2) data ds))
  /\ (forall l ds tr ds',
        self.(flatten_output) = false ->
        (forall c, In c l -> c <> feature ->
                   yname_of c <> yname_of feature) ->
        transform_on C self l data ds = (tr, inr ds') ->
        exists out,
          Dict.get string_dec self.(store_key) ds' = Some (ODict out)
          /\ Dict.get Key_eq_dec (KStr (yname_of feature)) out = None).
Proof.
  intros Hget Hdim.
  assert (Hskip : skipped C self hist feature) by (left; exact Hdim).
  split; [|split].
  - intros divided. rewrite transform_feature_eq, Hget.
    apply Z.leb_le in Hdim. now rewrite Hdim.
  - intros l1 l2 ds. apply transform_on_drop. intros d.
    now apply skipped_outcome with (hist := hist).
  - intros l ds tr ds' Hflat Hother Hrun.
    now apply skipped_no_group
      with (data := data) (l := l) (hist := hist) (ds := ds) (tr := tr).
Qed.

(** C7. A candidate whose projection is empty inserts nothing: whenever
    the projection is invoked for it the events are the call followed by
    the warning, and the accumulator is handed on unchanged, so the pass
    continues and its outcome is that of the pass without the candidate.
    In nested mode no table of the output is without rows, and the output
    has no entry under the candidate's [yname] unless another candidate
    derives the same one. *)
Theorem empty_projection_is_skipped (self : HistSplitter)
  (data : odict) (feature : string) (hist : obj) :
  Dict.get Key_eq_dec (KStr feature) data = Some hist ->
  projection C self hist feature = [] ->
  (forall divided,
     splittable C hist feature ->
     Dict.mem Key_eq_dec (KStr (yname_of feature)) divided = false ->
     transform_feature C self data divided feature
     = ([Log Debug (MsgNowSplitting feature);
         CallSplit hist self.(short_keys) (temporal C self hist feature)
           (xname_of feature) (yname_of feature)
           self.(filter_empty_split_hists);
         Log Warning (MsgEmpty (yname_of feature))], inr divided))
  /\ (forall divided,
        outcome (transform_feature C self data divided feature)
        = inr divided)
  /\ (forall l1 l2 ds,
        outcome (transform_on C self (l1 ++ feature :: l2) data ds)
        = outcome (transform_on C self (l1 ++ l2) data ds))
  /\ (forall l ds tr ds',
        self.(flatten_output) = false ->
        transform_on C self l data ds = (tr, inr ds') ->
        exists out,
          Dict.get string_dec self.(store_key) ds' = Some (ODict out)
          /\ Forall (fun kv => exists tbl,
                       snd kv = OFrame tbl /\ rows tbl <> []) out
          /\ ((forall c, In c l -> c <> feature ->
                         yname_of c <> yname_of feature) ->
              Dict.get Key_eq_dec (KStr (yname_of feature)) out = None)).
Proof.
  intros Hget Hempty.
  assert (Hskip : skipped C self hist feature) by (right; right; exact Hempty).
  split; [|split; [|split]].
  - intros divided [Hdim Hlen] Hmem. rewrite transform_feature_eq, Hget.
    apply Z.leb_gt in Hdim. rewrite Hdim.
    apply Z.eqb_eq in Hlen. rewrite Hlen. cbn [negb].
    rewrite Hmem, Hempty. reflexivity.
  - intros divided. now apply skipped_outcome with (hist := hist).
  - intros l1 l2 ds. apply transform_on_drop. intros d.
    now apply skipped_outcome with (hist := hist).
  - intros l ds tr ds' Hflat Hrun.
    destruct (nested_output self l data ds ds' tr Hflat Hrun) as [ND Hds].
    exists (map (group_table self) (accumulated C tr)).
    split; [subst ds'; apply get_set_same|]. split.
    + apply Forall_forall. intros kv Hkv. apply in_map_iff in Hkv.
      destruct Hkv as ([y sp] & <- & Hg).
      exists (split_table self sp). split; [reflexivity|].
      apply accumulated_in in Hg. destruct Hg as [Hne _].
      intros Hrows. apply Hne.
      pose proof (split_table_rows_length self sp) as [Hlen _].
      rewrite Hrows in Hlen. destruct sp; [reflexivity | discriminate].
    + intros Hother.
      destruct (skipped_no_group self data l feature hist ds ds' tr
                  Hget Hskip Hflat Hother Hrun) as (out & Hout & Hnone).
      rewrite Hds in Hout. rewrite get_set_same in Hout.
      inversion Hout; subst out. exact Hnone.
Qed.

(** C8. Every projection [transform] invokes is invoked on the container
    of a candidate's histogram, with the configured [short_keys] and
    [filter_empty_split_hists], the candidate's first token as [xname] and
    the rest of its name as [yname], and a [convert_time_index] that is
    true exactly when the container reports a temporal first axis or
    [xname] is in [var_timestamp].  Conversely a candidate that reaches
    the projection has it invoked with exactly these arguments. *)
Theorem projection_arguments (self : HistSplitter) (ds : Datastore Hist) :
  (forall h sk ct x y fl,
     In (CallSplit h sk ct x y fl) (trace (transform C self ds)) ->
     exists data feature,
       Dict.get string_dec self.(read_key) ds = Some (ODict data)
       /\ In feature (C.(get_features) self (Dict.keys data))
       /\ Dict.get Key_eq_dec (KStr feature) data = Some h
       /\ x = xname_of feature
       /\ y = yname_of feature
       /\ sk = self.(short_keys)
       /\ fl = self.(filter_empty_split_hists)
       /\ (ct = true <->
           C.(is_ts) h = true \/ In x self.(var_timestamp)))
  /\ (forall data divided feature hist,
        Dict.get Key_eq_dec (KStr feature) data = Some hist ->
        splittable C hist feature ->
        Dict.mem Key_eq_dec (KStr (yname_of feature)) divided = false ->
        In (CallSplit hist self.(short_keys)
              (C.(is_ts) hist
               || in_list (xname_of feature) self.(var_timestamp))
              (xname_of feature) (yname_of feature)
              self.(filter_empty_split_hists))
           (trace (transform_feature C self data divided feature))).
Proof.
  split.
  - intros h sk ct x y fl Hin. rewrite transform_trace in Hin.
    destruct Hin as [Hin|Hin]; [discriminate|].
    destruct (Dict.get string_dec self.(read_key) ds) as [[]|];
      try contradiction.
    apply transform_loop_calls in Hin.
    destruct Hin as (f & Hf & Hget & _ & -> & -> & -> & -> & ->).
    exists d, f. repeat split; auto.
    + unfold temporal. intros H. apply orb_true_iff in H.
      destruct H as [H|H]; [now left | right; now apply in_list_iff].
    + unfold temporal. intros [H|H]; apply orb_true_iff;
        [now left | right; now apply in_list_iff].
  - intros data divided feature hist Hget [Hdim Hlen] Hmem.
    rewrite transform_feature_eq, Hget.
    apply Z.leb_gt in Hdim. rewrite Hdim.
    apply Z.eqb_eq in Hlen. rewrite Hlen. cbn [negb]. rewrite Hmem.
    destruct (is_empty _); cbn [trace fst]; right; left; reflexivity.
Qed.

(* ----------------------------------------------------------------- *)
(** *** Entries of the accumulator in nested mode are written once *)

Lemma transform_loop_outcome_app (self : HistSplitter) (data : odict)
  (l1 l2 : list string) (divided : odict) :
  outcome (transform_loop C self data (l1 ++ l2) divided) =
  match outcome (transform_loop C self data l1 divided) with
  | inl e => inl e
  | inr d => outcome (transform_loop C self data l2 d)
  end.
Proof. now rewrite transform_loop_app, outcome_bind. Qed.

Lemma nested_entry_kept (self : HistSplitter) (data d d' : odict)
  (feature : string) (k : Key) (v : obj) :
  self.(flatten_output) = false ->
  Dict.get Key_eq_dec k d = Some v ->
  outcome (transform_feature C self data d feature) = inr d' ->
  Dict.get Key_eq_dec k d' = Some v.
Proof.
  intros Hflat Hk. rewrite transform_feature_eq.
  destruct (Dict.get Key_eq_dec (KStr feature) data) as [hist|];
    [|discriminate].
  destruct (C.(n_dim) hist <=? 1)%Z;
    [intros H; inversion H; subst; exact Hk|].
  destruct (negb _); [intros H; inversion H; subst; exact Hk|].
  destruct (Dict.mem _ _ _) eqn:Em;
    [intros H; inversion H; subst; exact Hk|].
  destruct (is_empty _); intros H; inversion H; subst; [exact Hk|].
  unfold update_divided. rewrite Hflat.
  rewrite get_set_elsewhere; [exact Hk|].
  intros ->. unfold Dict.mem in Em. now rewrite Hk in Em.
Qed.

Lemma nested_entry_kept_loop (self : HistSplitter) (data : odict)
  (l : list string) (d d' : odict) (k : Key) (v : obj) :
  self.(flatten_output) = false ->
  Dict.get Key_eq_dec k d = Some v ->
  outcome (transform_loop C self data l d) = inr d' ->
  Dict.get Key_eq_dec k d' = Some v.
Proof.
  intros Hflat. revert d.
  induction l as [|f l IH]; intros d Hk; cbn [transform_loop].
  - intros H. inversion H; subst. exact Hk.
  - rewrite outcome_bind.
    destruct (outcome (transform_feature C self data d f)) as [e|d1] eqn:E;
      [discriminate|].
    apply IH. eapply nested_entry_kept; eauto.
Qed.

Lemma set_set_same {K V : Type} (dec : forall a b : K, {a = b} + {a <> b})
  (k : K) (v w : V) (d : Dict.t) :
  Dict.set dec k v (Dict.set dec k w d) = Dict.set dec k v d.
Proof.
  induction d as [|[k' v'] r IH]; cbn.
  - destruct (dec k k); congruence.
  - destruct (dec k k') as [E|N]; cbn.
    + destruct (dec k k'); congruence.
    + destruct (dec k k'); [congruence|]. now rewrite IH.
Qed.

Lemma transform_loop_all_skipped (self : HistSplitter) (data : odict)
  (l : list string) (divided : odict) :
  Forall (fun f => exists hist,
            Dict.get Key_eq_dec (KStr f) data = Some hist
            /\ skipped C self hist f) l ->
  outcome (transform_loop C self data l divided) = inr divided.
Proof.
  induction 1 as [|f l (hist & Hget & Hskip) HF IH]; cbn [transform_loop].
  - reflexivity.
  - rewrite outcome_bind.
    now rewrite (skipped_outcome self data divided f hist Hget Hskip).
Qed.

(* ----------------------------------------------------------------- *)

(** C4, amended.  In nested mode, let a candidate [f1] pass the guards
    with a projection that is not empty while its [yname] has no entry
    yet, so that it is accumulated.  A later candidate [f2] of the same
    pass that passes the dimension guards and derives the same [yname] is
    skipped with the debug note before any projection is invoked for it;
    the accumulator is handed on unchanged, the outcome of the pass is
    that of the pass without [f2], and the entry of the output under that
    [yname] is the table of the projection of [f1]. *)
Theorem first_writer_wins (self : HistSplitter) (data : odict)
  (l0 l1 l2 : list string) (f1 f2 : string) (h1 h2 : obj)
  (d0 d1 : odict) (tr0 tr1 : list (Event Hist)) :
  self.(flatten_output) = false ->
  transform_loop C self data l0 [] = (tr0, inr d0) ->
  Dict.get Key_eq_dec (KStr f1) data = Some h1 ->
  splittable C h1 f1 ->
  Dict.mem Key_eq_dec (KStr (yname_of f1)) d0 = false ->
  projection C self h1 f1 <> [] ->
  transform_loop C self data l1
    (update_divided self d0 (projection C self h1 f1) (yname_of f1))
  = (tr1, inr d1) ->
  Dict.get Key_eq_dec (KStr f2) data = Some h2 ->
  splittable C h2 f2 ->
  yname_of f2 = yname_of f1 ->
  transform_feature C self data d1 f2
  = ([Log Debug (MsgNowSplitting f2);
      Log Debug (MsgAlreadyDivided (yname_of f2))], inr d1)
  /\ (forall ds,
        outcome (transform_on C self (l0 ++ f1 :: l1 ++ f2 :: l2) data ds)
        = outcome (transform_on C self (l0 ++ f1 :: l1 ++ l2) data ds))
  /\ (forall ds tr ds',
        transform_on C self (l0 ++ f1 :: l1 ++ f2 :: l2) data ds
        = (tr, inr ds') ->
        exists out,
          Dict.get string_dec self.(store_key) ds' = Some (ODict out)
          /\ Dict.get Key_eq_dec (KStr (yname_of f1)) out
             = Some (OFrame (split_table self (projection C self h1 f1)))).
Proof.
  intros Hflat H0 Hg1 [Hdim1 Hlen1] Hmem1 Hne1 H1 Hg2 [Hdim2 Hlen2] Hy.
  set (y := yname_of f1) in *.
  set (sp := projection C self h1 f1) in *.
  set (v := OList (records self sp)).
  (* the step of [f1] *)
  assert (Hstep1 : outcome (transform_feature C self data d0 f1)
                   = inr (update_divided self d0 sp y)).
  { rewrite transform_feature_eq, Hg1.
    apply Z.leb_gt in Hdim1. rewrite Hdim1.
    apply Z.eqb_eq in Hlen1. rewrite Hlen1. cbn [negb].
    fold y. rewrite Hmem1. fold sp.
    destruct sp; [congruence | reflexivity]. }
  assert (Hv0 : Dict.get Key_eq_dec (KStr y)
                  (update_divided self d0 sp y) = Some v).
  { unfold update_divided. rewrite Hflat. apply get_set_same. }
  assert (Hv1 : Dict.get Key_eq_dec (KStr y) d1 = Some v).
  { apply (nested_entry_kept_loop self data l1 _ d1 (KStr y) v Hflat Hv0).
    now rewrite H1. }
  (* the step of [f2] *)
  assert (Hstep2 : transform_feature C self data d1 f2
                   = ([Log Debug (MsgNowSplitting f2);
                       Log Debug (MsgAlreadyDivided (yname_of f2))],
                      inr d1)).
  { rewrite transform_feature_eq, Hg2.
    apply Z.leb_gt in Hdim2. rewrite Hdim2.
    apply Z.eqb_eq in Hlen2. rewrite Hlen2. cbn [negb].
    rewrite Hy. unfold Dict.mem. now rewrite Hv1. }
  (* the pass up to [f2] *)
  assert (Hpre : outcome (transform_loop C self data (l0 ++ f1 :: l1) [])
                 = inr d1).
  { rewrite transform_loop_outcome_app, H0. cbn [outcome snd].
    cbn [transform_loop]. rewrite outcome_bind, Hstep1. now rewrite H1. }
  assert (Hwith : forall l, outcome (transform_loop C self data
                                       (l0 ++ f1 :: l1 ++ l) [])
                            = outcome (transform_loop C self data l d1)).
  { intros l. change (l0 ++ f1 :: l1 ++ l) with (l0 ++ (f1 :: l1) ++ l).
    rewrite app_assoc, transform_loop_outcome_app.
    change (l0 ++ f1 :: l1) with (l0 ++ f1 :: l1) in Hpre.
    now rewrite Hpre. }
  assert (Hf2 : outcome (transform_loop C self data (f2 :: l2) d1)
                = outcome (transform_loop C self data l2 d1)).
  { cbn [transform_loop]. rewrite outcome_bind, Hstep2. reflexivity. }
  split; [exact Hstep2|]. split.
  - intros ds. rewrite !transform_on_outcome, !Hwith, Hf2. reflexivity.
  - intros ds tr ds' Hrun. apply transform_on_run in Hrun.
    destruct Hrun as (divided & tables & Hloop & _ & Htab & ->).
    assert (Hout : outcome (transform_loop C self data l2 d1)
                   = inr divided).
    { rewrite <- Hf2, <- Hwith. now rewrite Hloop. }
    pose proof (nested_entry_kept_loop self data l2 d1 divided (KStr y) v
                  Hflat Hv1 Hout) as Hdiv.
    destruct (tables_of_get self divided tables (KStr y) v Htab Hdiv)
      as (tbl & Htbl & Hgett).
    unfold v in Htbl. rewrite (to_table_records self sp Hne1) in Htbl.
    inversion Htbl; subst tbl.
    exists tables. split; [apply get_set_same | exact Hgett].
Qed.

(** C9. [transform] is idempotent with respect to a fixed input
    mapping.  When a run returns, a run on any store with the same object
    under [read_key] has the same trace and stores the same value under
    [store_key]; so running again on the store the first run returned,
    where the input mapping is still what it was, returns that very store:
    the value under [store_key] is the one the single run produced.  The
    input mapping is still what it was whenever [store_key] is not
    [read_key]. *)
Theorem transform_twice (self : HistSplitter) (ds ds1 : Datastore Hist)
  (tr : list (Event Hist)) :
  transform C self ds = (tr, inr ds1) ->
  (forall ds',
     Dict.get string_dec self.(read_key) ds'
     = Dict.get string_dec self.(read_key) ds ->
     exists ds2,
       transform C self ds' = (tr, inr ds2)
       /\ Dict.get string_dec self.(store_key) ds2
          = Dict.get string_dec self.(store_key) ds1)
  /\ (Dict.get string_dec self.(read_key) ds1
      = Dict.get string_dec self.(read_key) ds ->
      transform C self ds1 = (tr, inr ds1))
  /\ (self.(read_key) <> self.(store_key) ->
      Dict.get string_dec self.(read_key) ds1
      = Dict.get string_dec self.(read_key) ds).
Proof.
  intros Hrun.
  destruct (transform_run self ds ds1 tr Hrun)
    as (data & tr1 & Hget & -> & Hon).
  pose proof Hon as Hon'. apply transform_on_run in Hon'.
  destruct Hon' as (divided & tables & Hloop & ND & Htab & Hds1).
  assert (Hany : forall ds',
             Dict.get string_dec self.(read_key) ds'
             = Dict.get string_dec self.(read_key) ds ->
             transform C self ds'
             = (Log Info (MsgSplitting self.(read_key) self.(store_key))
                :: tr1,
                inr (Dict.set string_dec self.(store_key) (ODict tables)
                       ds'))).
  { intros ds' Hsame. rewrite Hget in Hsame.
    rewrite (transform_of_run self ds' data Hsame).
    rewrite transform_on_trace, transform_on_outcome, Hloop.
    cbn [trace outcome fst snd].
    rewrite (transform_frames_tables self divided ND), Htab.
    reflexivity. }
  split; [|split].
  - intros ds' Hsame. eexists. split; [apply Hany; exact Hsame|].
    rewrite Hds1, !get_set_same. reflexivity.
  - intros Hsame. rewrite (Hany ds1 Hsame).
    rewrite Hds1, set_set_same. reflexivity.
  - intros Hne. rewrite Hds1. apply get_set_elsewhere. exact Hne.
Qed.

(** C10. When [transform] returns, the store it returns is the store it
    was given with [store_key] assigned: every other key has the object
    it had, the input mapping under [read_key] included when [read_key]
    is another key, and the keys the store had keep their order.  When
    every candidate is skipped, or there is none, [store_key] is still
    assigned, to the empty mapping. *)
Theorem transform_writes_store_key_only (self : HistSplitter)
  (ds : Datastore Hist) :
  (forall tr ds',
     transform C self ds = (tr, inr ds') ->
     (exists out,
        ds' = Dict.set string_dec self.(store_key) (ODict out) ds)
     /\ (forall k, k <> self.(store_key) ->
                   Dict.get string_dec k ds' = Dict.get string_dec k ds)
     /\ (self.(read_key) <> self.(store_key) ->
         Dict.get string_dec self.(read_key) ds'
         = Dict.get string_dec self.(read_key) ds)
     /\ Dict.keys ds'
        = if in_dec string_dec self.(store_key) (Dict.keys ds)
          then Dict.keys ds
          else Dict.keys ds ++ [self.(store_key)])
  /\ (forall data,
        Dict.get string_dec self.(read_key) ds = Some (ODict data) ->
        Forall (fun f => exists hist,
                  Dict.get Key_eq_dec (KStr f) data = Some hist
                  /\ skipped C self hist f)
               (C.(get_features) self (Dict.keys data)) ->
        outcome (transform C self ds)
        = inr (Dict.set string_dec self.(store_key) (ODict []) ds)).
Proof.
  split.
  - intros tr ds' Hrun.
    destruct (transform_run self ds ds' tr Hrun)
      as (data & tr1 & Hget & -> & Hon).
    apply transform_on_run in Hon.
    destruct Hon as (divided & tables & _ & _ & _ & ->).
    split; [now exists tables|]. split; [|split].
    + intros k Hk. apply get_set_elsewhere. exact Hk.
    + intros Hne. apply get_set_elsewhere. exact Hne.
    + apply keys_set.
  - intros data Hget Hall.
    rewrite (transform_of_run self ds data Hget). cbn [outcome snd].
    rewrite transform_on_outcome.
    rewrite (transform_loop_all_skipped self data _ [] Hall).
    reflexivity.
Qed.

(* ----------------------------------------------------------------- *)
(** *** Flattened mode: what the loop accumulates *)

Lemma get_app (k : Key) (a b : odict) :
  Dict.get Key_eq_dec k (a ++ b) =
  match Dict.get Key_eq_dec k a with
  | Some v => Some v
  | None => Dict.get Key_eq_dec k b
  end.
Proof.
  induction a as [|[k' v'] a IH]; cbn [app Dict.get]; [reflexivity|].
  destruct (Key_eq_dec k k'); [reflexivity | exact IH].
Qed.

(** [d.update(src)]: for a key of [src] the last value [src] gives it,
    for any other key the value [d] had. *)
Lemma update_last_write_wins (k : Key) (src d : odict) :
  Dict.get Key_eq_dec k (Dict.update Key_eq_dec d src) =
  match Dict.get Key_eq_dec k (rev src) with
  | Some v => Some v
  | None => Dict.get Key_eq_dec k d
  end.
Proof.
  revert d. induction src as [|[k' v'] src IH]; intros d.
  - reflexivity.
  - rewrite update_cons, IH. cbn [rev]. rewrite get_app.
    destruct (Dict.get Key_eq_dec k (rev src)); [reflexivity|].
    cbn [Dict.get]. destruct (Key_eq_dec k k') as [E|N].
    + subst k'. apply get_set_same.
    + apply get_set_elsewhere. exact N.
Qed.

(** In flattened mode a candidate that is processed merges its projection
    into the one mapping, bin by bin; nothing is grouped by [yname]. *)
Lemma flatten_step_merges (self : HistSplitter) (data divided : odict)
  (feature : string) (hist : obj) :
  self.(flatten_output) = true ->
  Dict.get Key_eq_dec (KStr feature) data = Some hist ->
  splittable C hist feature ->
  Dict.mem Key_eq_dec (KStr (yname_of feature)) divided = false ->
  projection C self hist feature <> [] ->
  outcome (transform_feature C self data divided feature)
  = inr (Dict.update Key_eq_dec divided (projection C self hist feature)).
Proof.
  intros Hflat Hget [Hdim Hlen] Hmem Hne.
  rewrite transform_feature_eq, Hget.
  apply Z.leb_gt in Hdim. rewrite Hdim.
  apply Z.eqb_eq in Hlen. rewrite Hlen. cbn [negb]. rewrite Hmem.
  destruct (projection C self hist feature) eqn:E; [congruence|].
  cbn [is_empty outcome snd]. unfold update_divided. now rewrite Hflat.
Qed.

(** Whatever the mode, every value of the mapping a run stores has come
    out of [pd.DataFrame(...).set_index(...)]: it is a table. *)
Lemma output_values_are_tables (self : HistSplitter)
  (ds ds' : Datastore Hist) (tr : list (Event Hist)) :
  transform C self ds = (tr, inr ds') ->
  exists out,
    Dict.get string_dec self.(store_key) ds' = Some (ODict out)
    /\ Forall (fun kv => exists tbl, snd kv = OFrame tbl) out.
Proof.
  intros Hrun.
  destruct (transform_run self ds ds' tr Hrun)
    as (data & tr1 & Hget & -> & Hon).
  apply transform_on_run in Hon.
  destruct Hon as (divided & tables & _ & _ & Htab & ->).
  exists tables. split; [apply get_set_same|].
  now apply tables_of_frames with (self := self) (d := divided).
Qed.

End SplitterFacts.

(* ================================================================= *)
(** ** The sample at work *)

(** C2.  [flatten_output = true] on the 3-D input of the scenario, whose
    only bin with entries is bin 0.  The loop does accumulate the flat
    mapping from bin 0 to its sub-histogram.  The conversion loop that
    follows is not told about the mode: it hands the sub-histogram to
    [pd.DataFrame(...).set_index("date")].  With a pandas that refuses
    such an object the run raises and nothing is stored; whatever pandas
    does, a run that returns has stored a table under bin 0 and not the
    sub-histogram. *)
Theorem flatten_output_is_converted_away :
  outcome (transform_loop sample flat_splitter data_scenario
             ["cat:x:y"%string] [])
  = inr [(KInt 0, OHist (mkSample 2 false [(0, 5)]%Z))]
  /\ outcome (transform sample flat_splitter (store_of data_scenario))
     = inl ValueError
  /\ forall pd ds',
       outcome (transform (sample_with pd) flat_splitter
                  (store_of data_scenario)) = inr ds' ->
       (exists tbl,
          Dict.get string_dec "split"%string ds'
          = Some (ODict [(KInt 0, OFrame tbl)]))
       /\ Dict.get string_dec "split"%string ds'
          <> Some (ODict [(KInt 0, OHist (mkSample 2 false [(0, 5)]%Z))]).
Proof.
  split; [reflexivity|]. split; [reflexivity|].
  intros pd ds'. cbv -[set_index].
  destruct (pd _) as [e|df]; [discriminate|].
  destruct (set_index df (KStr "date")) as [e|tbl]; [discriminate|].
  intros H. inversion H; subst ds'. split.
  - exists tbl. reflexivity.
  - cbv. discriminate.
Qed.

Lemma nested_tables_keep_bin_order_witness :
  nested_splitter.(flatten_output) = false
  /\ Dict.get string_dec nested_splitter.(read_key) (store_of data_single)
     = Some (ODict data_single)
  /\ Forall (fun f => exists hist,
               Dict.get Key_eq_dec (KStr f) data_single = Some hist)
            (sample.(get_features) nested_splitter (Dict.keys data_single))
  /\ exists tr ds',
       transform sample nested_splitter (store_of data_single)
       = (tr, inr ds')
       /\ Dict.get string_dec "split"%string ds'
          = Some (ODict
                    (map (group_table nested_splitter)
                       (accumulated sample tr))).
Proof.
  assert (H1 : nested_splitter.(flatten_output) = false) by reflexivity.
  assert (H2 : Dict.get string_dec nested_splitter.(read_key)
                 (store_of data_single) = Some (ODict data_single))
    by reflexivity.
  assert (H3 : Forall (fun f => exists hist,
                         Dict.get Key_eq_dec (KStr f) data_single
                         = Some hist)
                 (sample.(get_features) nested_splitter
                    (Dict.keys data_single))).
  { constructor; [|constructor]. exists (OHist hist_2d). reflexivity. }
  split; [exact H1|]. split; [exact H2|]. split; [exact H3|].
  destruct (nested_tables_keep_bin_order SampleHist sample nested_splitter
              _ _ H1 H2 H3) as (tr & ds' & out & Hrun & Hout & Heq & _).
  exists tr, ds'. split; [exact Hrun|]. rewrite <- Heq. exact Hout.
Defined.

(** C4, as worded, fails: with ["a:x"] before ["b:x"] and an empty
    projection for ["a:x"], the projection of the later candidate is
    invoked and it is its table that stands under ["x"]. *)
Lemma later_candidate_fills_the_group :
  ~ earlier_candidate_always_wins sample nested_splitter
      (store_of data_same_yname).
Proof.
  intros H.
  specialize (H data_same_yname [] "a:x"%string [] "b:x"%string []
                (OHist hist_2d_empty) (OHist hist_2d)
                (events_of nested_splitter data_same_yname)
                (store_after nested_splitter data_same_yname)
                [(KStr "x",
                  OFrame (split_table nested_splitter
                            (projection sample nested_splitter
                               (OHist hist_2d) "b:x")))]).
  destruct H as [Hcall _]; try reflexivity.
  - discriminate.
  - apply Hcall. vm_compute. right. right. right. right. right. left.
    reflexivity.
Qed.

Lemma first_writer_wins_witness :
  nested_splitter.(flatten_output) = false
  /\ transform_loop sample nested_splitter data_two_writers [] []
     = ([], inr [])
  /\ Dict.get Key_eq_dec (KStr "t:x") data_two_writers
     = Some (OHist hist_2d)
  /\ splittable sample (OHist hist_2d) "t:x"
  /\ Dict.mem Key_eq_dec (KStr (yname_of "t:x")) (@nil (Key * Obj SampleHist))
     = false
  /\ projection sample nested_splitter (OHist hist_2d) "t:x" <> []
  /\ transform_loop sample nested_splitter data_two_writers []
       (update_divided nested_splitter []
          (projection sample nested_splitter (OHist hist_2d) "t:x")
          (yname_of "t:x"))
     = ([], inr (update_divided nested_splitter []
                   (projection sample nested_splitter (OHist hist_2d) "t:x")
                   (yname_of "t:x")))
  /\ Dict.get Key_eq_dec (KStr "u:x") data_two_writers
     = Some (OHist hist_2d_other)
  /\ splittable sample (OHist hist_2d_other) "u:x"
  /\ yname_of "u:x" = yname_of "t:x"
  /\ outcome (transform_on sample nested_splitter
                ["t:x"; "u:x"]%string data_two_writers
                (store_of data_two_writers))
     = outcome (transform_on sample nested_splitter
                  ["t:x"]%string data_two_writers
                  (store_of data_two_writers)).
Proof.
  assert (H1 : nested_splitter.(flatten_output) = false) by reflexivity.
  assert (H2 : transform_loop sample nested_splitter data_two_writers [] []
               = ([], inr [])) by reflexivity.
  assert (H3 : Dict.get Key_eq_dec (KStr "t:x") data_two_writers
               = Some (OHist hist_2d)) by reflexivity.
  assert (H4 : splittable sample (OHist hist_2d) "t:x")
    by (split; reflexivity).
  assert (H5 : Dict.mem Key_eq_dec (KStr (yname_of "t:x"))
                 (@nil (Key * Obj SampleHist)) = false) by reflexivity.
  assert (H6 : projection sample nested_splitter (OHist hist_2d) "t:x"
               <> []) by (vm_compute; discriminate).
  assert (H7 : transform_loop sample nested_splitter data_two_writers []
                 (update_divided nested_splitter []
                    (projection sample nested_splitter (OHist hist_2d) "t:x")
                    (yname_of "t:x"))
               = ([], inr (update_divided nested_splitter []
                             (projection sample nested_splitter
                                (OHist hist_2d) "t:x")
                             (yname_of "t:x")))) by reflexivity.
  assert (H8 : Dict.get Key_eq_dec (KStr "u:x") data_two_writers
               = Some (OHist hist_2d_other)) by reflexivity.
  assert (H9 : splittable sample (OHist hist_2d_other) "u:x")
    by (split; reflexivity).
  assert (H10 : yname_of "u:x" = yname_of "t:x") by reflexivity.
  repeat (split; [assumption|]).
  exact (proj1 (proj2 (first_writer_wins SampleHist sample nested_splitter
                         data_two_writers [] [] [] "t:x" "u:x" _ _ _ _ _ _
                         H1 H2 H3 H4 H5 H6 H7 H8 H9 H10))
           (store_of data_two_writers)).
Defined.

(** C5, as worded, fails: a 1-D histogram under a name of two tokens is
    a mismatch, and the run logs no error: the candidate leaves at the
    first guard, with a debug note. *)
Lemma mismatch_without_error :
  ~ every_mismatch_logs_an_error sample nested_splitter
      (store_of data_low_dimension).
Proof.
  intros H.
  destruct (H data_low_dimension "a:b"%string (OHist hist_1d))
    as (msg & Hin).
  - reflexivity.
  - left. reflexivity.
  - reflexivity.
  - vm_compute. discriminate.
  - vm_compute in Hin.
    repeat (destruct Hin as [Hin|Hin]; [discriminate|]).
    exact Hin.
Qed.

Lemma inconsistent_feature_is_skipped_witness :
  Dict.get Key_eq_dec (KStr "q:r:s") data_inconsistent
  = Some (OHist hist_2d)
  /\ Z.of_nat (List.length (split_colon "q:r:s"))
     <> sample.(n_dim) (OHist hist_2d)
  /\ transform_feature sample nested_splitter data_inconsistent [] "q:r:s"
     = ([Log Debug (MsgNowSplitting "q:r:s");
         Log Error (MsgInconsistent "q:r:s" 2 3)], inr []).
Proof.
  assert (H1 : Dict.get Key_eq_dec (KStr "q:r:s") data_inconsistent
               = Some (OHist hist_2d)) by reflexivity.
  assert (H2 : Z.of_nat (List.length (split_colon "q:r:s"))
               <> sample.(n_dim) (OHist hist_2d))
    by (vm_compute; discriminate).
  split; [exact H1|]. split; [exact H2|].
  exact (proj1 (inconsistent_feature_is_skipped SampleHist sample
                  nested_splitter data_inconsistent "q:r:s" _ H1 H2) []).
Defined.

(** C6, as worded, fails: the 1-D histogram under ["a:x"] is skipped,
    and the output still has an entry under its derived group ["x"]: the
    table of the 2-D histogram under ["b:x"], which derives the same
    group. *)
Lemma low_dimension_group_is_filled :
  ~ low_dimension_leaves_no_group sample nested_splitter
      (store_of data_shared_group).
Proof.
  intros H.
  specialize (H data_shared_group "a:x"%string (OHist hist_1d)
                (events_of nested_splitter data_shared_group)
                (store_after nested_splitter data_shared_group)
                [(KStr "x",
                  OFrame (split_table nested_splitter
                            (projection sample nested_splitter
                               (OHist hist_2d) "b:x")))]).
  assert (Hnone : Dict.get Key_eq_dec (KStr (yname_of "a:x"))
                    [(KStr "x",
                      OFrame (split_table nested_splitter
                                (projection sample nested_splitter
                                   (OHist hist_2d) "b:x")))]
                  = None).
  { apply H.
    - reflexivity.
    - left. reflexivity.
    - reflexivity.
    - vm_compute. discriminate.
    - reflexivity.
    - reflexivity. }
  vm_compute in Hnone. discriminate.
Qed.

Lemma low_dimension_is_skipped_witness :
  Dict.get Key_eq_dec (KStr "a:b") data_low_dimension
  = Some (OHist hist_1d)
  /\ (sample.(n_dim) (OHist hist_1d) <= 1)%Z
  /\ outcome (transform_on sample nested_splitter ["a:b"; "t:x"]%string
                data_low_dimension (store_of data_low_dimension))
     = outcome (transform_on sample nested_splitter ["t:x"]%string
                  data_low_dimension (store_of data_low_dimension)).
Proof.
  assert (H1 : Dict.get Key_eq_dec (KStr "a:b") data_low_dimension
               = Some (OHist hist_1d)) by reflexivity.
  assert (H2 : (sample.(n_dim) (OHist hist_1d) <= 1)%Z)
    by (vm_compute; discriminate).
  split; [exact H1|]. split; [exact H2|].
  exact (proj1 (proj2 (low_dimension_is_skipped SampleHist sample
                         nested_splitter data_low_dimension "a:b" _ H1 H2))
           [] ["t:x"%string] (store_of data_low_dimension)).
Defined.

Lemma empty_projection_is_skipped_witness :
  Dict.get Key_eq_dec (KStr "e:y") data_empty_projection
  = Some (OHist hist_2d_empty)
  /\ projection sample nested_splitter (OHist hist_2d_empty) "e:y" = []
  /\ transform_feature sample nested_splitter data_empty_projection []
       "e:y"
     = ([Log Debug (MsgNowSplitting "e:y");
         CallSplit (OHist hist_2d_empty) true false "e" "y" true;
         Log Warning (MsgEmpty "y")], inr []).
Proof.
  assert (H1 : Dict.get Key_eq_dec (KStr "e:y") data_empty_projection
               = Some (OHist hist_2d_empty)) by reflexivity.
  assert (H2 : projection sample nested_splitter (OHist hist_2d_empty) "e:y"
               = []) by reflexivity.
  split; [exact H1|]. split; [exact H2|].
  apply (proj1 (empty_projection_is_skipped SampleHist sample
                  nested_splitter data_empty_projection "e:y" _ H1 H2) []).
  - split; reflexivity.
  - reflexivity.
Defined.

Lemma projection_arguments_witness :
  In (CallSplit (OHist hist_2d) true false "t" "x" true)
     (trace (transform sample nested_splitter (store_of data_single)))
  /\ exists data feature,
       Dict.get string_dec nested_splitter.(read_key) (store_of data_single)
       = Some (ODict data)
       /\ In feature (sample.(get_features) nested_splitter (Dict.keys data))
       /\ Dict.get Key_eq_dec (KStr feature) data = Some (OHist hist_2d)
       /\ "t"%string = xname_of feature
       /\ "x"%string = yname_of feature
       /\ true = nested_splitter.(short_keys)
       /\ true = nested_splitter.(filter_empty_split_hists)
       /\ (false = true <->
           sample.(is_ts) (OHist hist_2d) = true
           \/ In "t"%string nested_splitter.(var_timestamp)).
Proof.
  assert (H1 : In (CallSplit (OHist hist_2d) true false "t" "x" true)
                 (trace (transform sample nested_splitter
                           (store_of data_single))))
    by (right; right; left; reflexivity).
  split; [exact H1|].
  exact (proj1 (projection_arguments SampleHist sample nested_splitter
                  (store_of data_single)) _ _ _ _ _ _ H1).
Defined.

Lemma transform_twice_witness :
  transform sample nested_splitter (store_of data_single)
  = (events_of nested_splitter data_single,
     inr (store_after nested_splitter data_single))
  /\ Dict.get string_dec nested_splitter.(read_key)
       (store_after nested_splitter data_single)
     = Dict.get string_dec nested_splitter.(read_key) (store_of data_single)
  /\ transform sample nested_splitter
       (store_after nested_splitter data_single)
     = (events_of nested_splitter data_single,
        inr (store_after nested_splitter data_single)).
Proof.
  assert (H1 : transform sample nested_splitter (store_of data_single)
               = (events_of nested_splitter data_single,
                  inr (store_after nested_splitter data_single)))
    by reflexivity.
  assert (H2 : Dict.get string_dec nested_splitter.(read_key)
                 (store_after nested_splitter data_single)
               = Dict.get string_dec nested_splitter.(read_key)
                   (store_of data_single))
    by reflexivity.
  split; [exact H1|]. split; [exact H2|].
  exact (proj1 (proj2 (transform_twice SampleHist sample nested_splitter
                         _ _ _ H1)) H2).
Defined.

(** An instance whose [store_key] is its [read_key] stores over its
    input: after the run the input mapping is not what it was. *)
Example in_place_instance_overwrites_its_input :
  Dict.get string_dec "hists"%string
    (store_after in_place_splitter data_single)
  <> Dict.get string_dec "hists"%string (store_of data_single).
Proof. vm_compute. discriminate. Qed.

Lemma transform_writes_store_key_only_witness :
  transform sample nested_splitter (store_of data_single)
  = (events_of nested_splitter data_single,
     inr (store_after nested_splitter data_single))
  /\ Dict.get string_dec "hists"%string
       (store_after nested_splitter data_single)
     = Dict.get string_dec "hists"%string (store_of data_single)
  /\ outcome (transform sample nested_splitter
                (store_of [(KStr "x", OHist hist_1d)]))
     = inr (Dict.set string_dec "split"%string (ODict [])
              (store_of [(KStr "x", OHist hist_1d)])).
Proof.
  assert (H1 : transform sample nested_splitter (store_of data_single)
               = (events_of nested_splitter data_single,
                  inr (store_after nested_splitter data_single)))
    by reflexivity.
  split; [exact H1|]. split.
  - apply (proj1 (transform_writes_store_key_only SampleHist sample
                    nested_splitter (store_of data_single)) _ _ H1).
    discriminate.
  - apply (proj2 (transform_writes_store_key_only SampleHist sample
                    nested_splitter
                    (store_of [(KStr "x", OHist hist_1d)]))
             [(KStr "x", OHist hist_1d)]).
    + reflexivity.
    + constructor; [|constructor].
      exists (OHist hist_1d). split; [reflexivity|].
      left. vm_compute. discriminate.
Defined.

(* ================================================================= *)
(** ** More about the names of features *)

Lemma split_colon_tokens (s : string) :
  Forall (fun tok => colon_free tok = true) (split_colon s).
Proof.
  induction s as [|c rest IH]; cbn [split_colon].
  - repeat constructor.
  - destruct (Ascii.eqb c colon) eqn:E.
    + constructor; [reflexivity | exact IH].
    + pose proof (split_colon_nonempty rest) as Hne.
      destruct (split_colon rest) as [|tok toks]; [congruence|].
      inversion IH as [|? ? Htok Htoks]; subst.
      constructor; [|exact Htoks]. cbn [colon_free]. now rewrite E, Htok.
Qed.

Lemma split_colon_free (tok : string) :
  colon_free tok = true -> split_colon tok = [tok].
Proof.
  induction tok as [|c rest IH]; cbn [colon_free split_colon].
  - reflexivity.
  - intros H. apply andb_true_iff in H. destruct H as [Hc Hrest].
    apply negb_true_iff in Hc. rewrite Hc, (IH Hrest). reflexivity.
Qed.

Lemma split_colon_app (tok rest : string) :
  colon_free tok = true ->
  split_colon (tok ++ String colon rest) = tok :: split_colon rest.
Proof.
  induction tok as [|c tok IH]; cbn [colon_free append split_colon].
  - intros _. now rewrite Ascii.eqb_refl.
  - intros H. apply andb_true_iff in H. destruct H as [Hc Htok].
    apply negb_true_iff in Hc. rewrite Hc, (IH Htok). reflexivity.
Qed.

Lemma split_join_colon (l : list string) :
  l <> [] ->
  Forall (fun tok => colon_free tok = true) l ->
  split_colon (join_colon l) = l.
Proof.
  induction l as [|tok toks IH]; [congruence|].
  intros _ HF. inversion HF as [|? ? Htok Htoks]; subst.
  destruct toks as [|tok' toks'].
  - cbn [join_colon]. now apply split_colon_free.
  - change (join_colon (tok :: tok' :: toks'))
      with (tok ++ String colon (join_colon (tok' :: toks')))%string.
    rewrite split_colon_app by exact Htok.
    rewrite IH; [reflexivity | discriminate | exact Htoks].
Qed.

(** X1. For a feature name of two or more tokens, the name is [xname],
    a colon and [yname]; and splitting [yname] again gives exactly the
    tokens after the first, so the group name has one axis less than the
    feature. *)
Theorem yname_has_the_remaining_axes (feature : string) :
  (2 <= List.length (split_colon feature))%nat ->
  feature = (xname_of feature ++ String colon (yname_of feature))%string
  /\ split_colon (yname_of feature) = tl (split_colon feature)
  /\ S (List.length (split_colon (yname_of feature)))
     = List.length (split_colon feature).
Proof.
  intros H. split; [now apply feature_of_names|].
  assert (Hsplit : split_colon (yname_of feature)
                   = tl (split_colon feature)).
  { unfold yname_of. pose proof (split_colon_tokens feature) as HF.
    destruct (split_colon feature) as [|tok [|tok' toks]]; cbn in H;
      try lia.
    inversion HF; subst. apply split_join_colon; [discriminate | assumption]. }
  split; [exact Hsplit|]. rewrite Hsplit.
  destruct (split_colon feature); cbn in *; lia.
Qed.

Lemma yname_has_the_remaining_axes_witness :
  (2 <= List.length (split_colon "time:x:y"))%nat
  /\ split_colon (yname_of "time:x:y") = ["x"; "y"]%string.
Proof.
  assert (H : (2 <= List.length (split_colon "time:x:y"))%nat)
    by (vm_compute; repeat constructor).
  split; [exact H|].
  exact (proj1 (proj2 (yname_has_the_remaining_axes "time:x:y" H))).
Defined.

(* ================================================================= *)
(** ** More about the splitter *)

Section MoreSplitterFacts.
Variable Hist : Type.
Variable C : Collaborators Hist.

Local Abbreviation obj := (Obj Hist).
Local Abbreviation odict := (dict Hist).

(** X2. [data[feature]] raises for a candidate that is no key of the input
    mapping.  The candidates before it are processed as usual; at the
    first missing one the pass stops with the [KeyError] right after the
    debug message that announces the candidate: the later candidates are
    not visited, nothing is converted and nothing is stored. *)
Theorem missing_candidate_raises_key_error (self : HistSplitter)
  (data : odict) (l1 l2 : list string) (feature : string) :
  Forall (fun c => exists hist,
            Dict.get Key_eq_dec (KStr c) data = Some hist) l1 ->
  Dict.get Key_eq_dec (KStr feature) data = None ->
  exists tr1 d1,
    transform_loop C self data l1 [] = (tr1, inr d1)
    /\ (forall ds,
          transform_on C self (l1 ++ feature :: l2) data ds
          = (tr1 ++ [Log Debug (MsgNowSplitting feature)],
             inl (KeyError (KStr feature))))
    /\ (forall ds,
          Dict.get string_dec self.(read_key) ds = Some (ODict data) ->
          C.(get_features) self (Dict.keys data) = l1 ++ feature :: l2 ->
          transform C self ds
          = (Log Info (MsgSplitting self.(read_key) self.(store_key))
             :: tr1 ++ [Log Debug (MsgNowSplitting feature)],
             inl (KeyError (KStr feature)))).
Proof.
  intros Hall Hmiss.
  destruct (transform_loop_returns Hist C self data l1 [] Hall)
    as (tr1 & d1 & Hloop).
  exists tr1, d1. split; [exact Hloop|].
  assert (Hon : forall ds,
             transform_on C self (l1 ++ feature :: l2) data ds
             = (tr1 ++ [Log Debug (MsgNowSplitting feature)],
                inl (KeyError (KStr feature)))).
  { intros ds. unfold transform_on. rewrite transform_loop_app, Hloop.
    cbn [bind transform_loop]. rewrite transform_feature_eq, Hmiss.
    reflexivity. }
  split; [exact Hon|].
  intros ds Hread Hfeat.
  rewrite (transform_of_run Hist C self ds data Hread), Hfeat, Hon.
  reflexivity.
Qed.

Lemma repeated_step_is_skipped (self : HistSplitter) (data : odict)
  (l : list string) (feature : string) (d0 d0' d1 : odict) :
  self.(flatten_output) = false ->
  outcome (transform_feature C self data d0 feature) = inr d0' ->
  outcome (transform_loop C self data l d0') = inr d1 ->
  outcome (transform_feature C self data d1 feature) = inr d1.
Proof.
  intros Hflat Hstep Hloop.
  assert (Hkept : forall v,
             Dict.get Key_eq_dec (KStr (yname_of feature)) d0' = Some v ->
             Dict.mem Key_eq_dec (KStr (yname_of feature)) d1 = true).
  { intros v Hv. unfold Dict.mem.
    now rewrite (nested_entry_kept_loop Hist C self data l d0' d1 _ v
                   Hflat Hv Hloop). }
  rewrite transform_feature_eq in Hstep |- *.
  destruct (Dict.get Key_eq_dec (KStr feature) data) as [hist|];
    [|discriminate].
  destruct (C.(n_dim) hist <=? 1)%Z; [reflexivity|].
  destruct (negb _); [reflexivity|].
  destruct (Dict.mem Key_eq_dec (KStr (yname_of feature)) d0) eqn:M0.
  - inversion Hstep; subst d0'. unfold Dict.mem in M0.
    destruct (Dict.get Key_eq_dec (KStr (yname_of feature)) d0) as [v|] eqn:G;
      [|discriminate].
    now rewrite (Hkept v eq_refl).
  - destruct (is_empty _) eqn:Ee.
    + destruct (Dict.mem _ _ d1); reflexivity.
    + inversion Hstep; subst d0'.
      rewrite (Hkept (OList (records self
                                (projection C self hist feature)))).
      * reflexivity.
      * unfold update_divided. rewrite Hflat. apply get_set_same.
Qed.

(** X3. In nested mode a candidate that comes up a second time in the
    pass changes nothing: whether it was skipped, accumulated or found
    empty the first time, the second visit hands the accumulator on as it
    is, and the pass has the outcome of the pass without the repetition. *)
Theorem repeated_candidate_is_harmless (self : HistSplitter)
  (data : odict) (l0 l1 l2 : list string) (feature : string)
  (ds : Datastore Hist) :
  self.(flatten_output) = false ->
  outcome (transform_on C self (l0 ++ feature :: l1 ++ feature :: l2)
             data ds)
  = outcome (transform_on C self (l0 ++ feature :: l1 ++ l2) data ds).
Proof.
  intros Hflat. rewrite !transform_on_outcome.
  change (l0 ++ feature :: l1 ++ feature :: l2)
    with (l0 ++ (feature :: l1) ++ feature :: l2).
  change (l0 ++ feature :: l1 ++ l2) with (l0 ++ (feature :: l1) ++ l2).
  rewrite !app_assoc.
  rewrite (transform_loop_outcome_app Hist C self data
             (l0 ++ feature :: l1) (feature :: l2) []).
  rewrite (transform_loop_outcome_app Hist C self data
             (l0 ++ feature :: l1) l2 []).
  destruct (outcome (transform_loop C self data (l0 ++ feature :: l1) []))
    as [e|d1] eqn:E1; [reflexivity|].
  cbn [transform_loop]. rewrite outcome_bind.
  rewrite transform_loop_outcome_app in E1.
  destruct (outcome (transform_loop C self data l0 [])) as [e|d0];
    [discriminate|].
  cbn [transform_loop] in E1. rewrite outcome_bind in E1.
  destruct (outcome (transform_feature C self data d0 feature))
    as [e|d0'] eqn:Es; [discriminate|].
  now rewrite (repeated_step_is_skipped self data l1 feature d0 d0' d1
                 Hflat Es E1).
Qed.

Lemma tables_of_raises (self : HistSplitter) (d : odict) (e : Exn) :
  tables_of C self d = inl e ->
  exists k v, In (k, v) d /\ to_table C self v = inl e.
Proof.
  induction d as [|[k v] r IH]; cbn [tables_of]; [discriminate|].
  destruct (to_table C self v) as [e'|tbl] eqn:Et.
  - intros H. inversion H; subst. exists k, v. split; [now left | exact Et].
  - destruct (tables_of C self r) as [e'|r']; [|discriminate].
    intros H. inversion H; subst.
    destruct (IH eq_refl) as (k' & v' & Hin & Hv).
    exists k', v'. split; [now right | exact Hv].
Qed.

(** X4. The loop that pops every key and assigns it again, converted,
    leaves the dictionary in its first order: when it returns, the keys
    are the keys it started from, in the same order, and each holds the
    table of the value it held; when it raises, the exception is the one
    pandas raised for one of the values, never a [KeyError] of [pop]. *)
Theorem conversion_keeps_the_keys_in_order (self : HistSplitter)
  (d : odict) :
  NoDup (Dict.keys d) ->
  trace (transform_frames C self (Dict.keys d) d) = []
  /\ match outcome (transform_frames C self (Dict.keys d) d) with
     | inr t =>
         Dict.keys t = Dict.keys d
         /\ forall k v,
              Dict.get Key_eq_dec k d = Some v ->
              exists tbl,
                to_table C self v = inr tbl
                /\ Dict.get Key_eq_dec k t = Some tbl
     | inl e => exists k v, In (k, v) d /\ to_table C self v = inl e
     end.
Proof.
  intros ND. rewrite (transform_frames_tables Hist C self d ND).
  split; [reflexivity|]. cbn [outcome snd].
  destruct (tables_of C self d) as [e|t] eqn:Et.
  - now apply tables_of_raises.
  - split; [now apply tables_of_keys with (C := C) (self := self)|].
    intros k v Hv.
    now apply tables_of_get with (d := d).
Qed.

(** X5. In flattened mode a candidate that is processed merges its
    projection into the one accumulator with [dict.update]: afterwards a
    bin of the projection holds the sub-histogram the projection gives it
    (the last one, should the projection list a bin twice) whatever an
    earlier candidate had stored under that bin, and every other key
    holds what it held. *)
Theorem flattened_merge_is_last_write_wins (self : HistSplitter)
  (data divided : odict) (feature : string) (hist : obj) :
  self.(flatten_output) = true ->
  Dict.get Key_eq_dec (KStr feature) data = Some hist ->
  splittable C hist feature ->
  Dict.mem Key_eq_dec (KStr (yname_of feature)) divided = false ->
  projection C self hist feature <> [] ->
  exists divided',
    outcome (transform_feature C self data divided feature) = inr divided'
    /\ forall k,
         Dict.get Key_eq_dec k divided'
         = match Dict.get Key_eq_dec k
                   (rev (projection C self hist feature)) with
           | Some h => Some h
           | None => Dict.get Key_eq_dec k divided
           end.
Proof.
  intros Hflat Hget Hsp Hmem Hne.
  exists (Dict.update Key_eq_dec divided (projection C self hist feature)).
  split.
  - now apply flatten_step_merges.
  - intros k. apply update_last_write_wins.
Qed.

Lemma tables_of_indexed (self : HistSplitter) (d t : odict) :
  tables_of C self d = inr t ->
  Forall (fun kv => exists tbl,
            snd kv = OFrame tbl
            /\ index_name tbl = Some (KStr self.(index_col))) t.
Proof.
  revert t. induction d as [|[k v] r IH]; intros t; cbn [tables_of].
  - intros H. inversion H. constructor.
  - unfold to_table at 1.
    destruct (pd_DataFrame C v) as [e|df]; [discriminate|].
    unfold set_index.
    destruct (position (KStr self.(index_col)) (columns df)) as [i|];
      [|discriminate].
    destruct (tables_of C self r) as [e|r']; [discriminate|].
    intros H. inversion H; subst. constructor; [|auto].
    eexists. split; reflexivity.
Qed.

(** X6. Whatever the mode, when [transform] returns, every value of the
    mapping it has stored under [store_key] is a table whose index is
    named [index_col]: the conversion is applied to every entry of the
    accumulator, grouped or flattened. *)
Theorem stored_values_are_indexed_tables (self : HistSplitter)
  (ds ds' : Datastore Hist) (tr : list (Event Hist)) :
  transform C self ds = (tr, inr ds') ->
  exists out,
    Dict.get string_dec self.(store_key) ds' = Some (ODict out)
    /\ Forall (fun kv => exists tbl,
                 snd kv = OFrame tbl
                 /\ index_name tbl = Some (KStr self.(index_col))) out.
Proof.
  intros Hrun.
  destruct (transform_run Hist C self ds ds' tr Hrun)
    as (data & tr1 & Hget & -> & Hon).
  apply transform_on_run in Hon.
  destruct Hon as (divided & tables & _ & _ & Htab & ->).
  exists tables. split; [apply get_set_same|].
  now apply tables_of_indexed with (d := divided).
Qed.

End MoreSplitterFacts.

(* ================================================================= *)
(** ** The plotting backend: facts *)

Module BackendFacts.
Import Backend.

Lemma effects_and_then {A C} (m : B A) (f : A -> B C) :
  effects (and_then m f) =
  effects m ++ match result m with
               | inl _ => []
               | inr a => effects (f a)
               end.
Proof.
  destruct m as [tr [e|a]]; cbn.
  - now rewrite app_nil_r.
  - destruct (f a); reflexivity.
Qed.

Lemma result_and_then {A C} (m : B A) (f : A -> B C) :
  result (and_then m f) =
  match result m with
  | inl e => inl e
  | inr a => result (f a)
  end.
Proof.
  destruct m as [tr [e|a]]; cbn; [reflexivity|].
  destruct (f a); reflexivity.
Qed.

Lemma lower_char_idem (c : ascii) : lower_char (lower_char c) = lower_char c.
Proof. destruct c as [[] [] [] [] [] [] [] []]; reflexivity. Qed.

Lemma lower_idem (s : string) : lower (lower s) = lower s.
Proof.
  induction s as [|c s IH]; cbn [lower]; [reflexivity|].
  now rewrite lower_char_idem, IH.
Qed.

Lemma lower_in_map (x : string) (l : list string) :
  In x (map lower l) -> lower x = x.
Proof.
  intros H. apply in_map_iff in H. destruct H as (y & <- & _).
  apply lower_idem.
Qed.

Lemma set_matplotlib_backend_blocks (env : Env) (backend : option string)
  (batch : BatchArg) (silent : bool) (mpl : Matplotlib) (ri : bool) :
  env.(matplotlib) = Some mpl ->
  check_interactive_backend env = inr ri ->
  set_matplotlib_backend env backend batch silent =
  and_then (check_display (batch_mode batch ri) ri silent) (fun _ =>
  and_then (leave_interactive (batch_mode batch ri)) (fun _ =>
  and_then (determine (batch_mode batch ri) (lower mpl.(get_backend))
              (map lower mpl.(non_interactive_bk)) backend) (fun c =>
  and_then (make_compatible (batch_mode batch ri) silent
              (map lower mpl.(non_interactive_bk)) (lower c)) (fun c0 =>
  set_if_needed silent env.(pyplot_loaded) mpl (lower mpl.(get_backend))
    c0)))).
Proof.
  intros Hm Hc. unfold set_matplotlib_backend. rewrite Hm, Hc.
  unfold lift. cbn [and_then app].
  match goal with
  | |- (let (tr', r) := ?X in (tr', r)) = ?Y =>
      change Y with X; destruct X; reflexivity
  end.
Qed.

(* ----------------------------------------------------------------- *)
(** *** The blocks, one by one *)

Lemma check_display_effects (rb ri silent : bool) :
  Forall (fun e => is_use e = false) (effects (check_display rb ri silent))
  /\ (silent = true -> result (check_display rb ri silent) = inr tt)
  /\ (rb = true -> check_display rb ri silent = ([], inr tt)).
Proof.
  destruct rb, ri, silent; cbn; repeat split; try reflexivity;
    try discriminate; repeat constructor.
Qed.

Lemma leave_interactive_run (rb : bool) :
  leave_interactive rb
  = (if rb then [Interactive false] else [], inr tt).
Proof. destruct rb; reflexivity. Qed.

Lemma determine_run (rb : bool) (curr : string) (ni : list string)
  (backend : option string) :
  effects (determine rb curr ni backend) = []
  /\ match result (determine rb curr ni backend) with
     | inl e => e = IndexError /\ ni = []
     | inr c =>
         if falsy backend
         then if negb rb || in_list curr ni
              then c = curr
              else In c ni
         else c = str backend
     end.
Proof.
  unfold determine. destruct (falsy backend).
  - destruct (negb rb || in_list curr ni).
    + cbn. auto.
    + destruct ni as [|x ni]; cbn; auto.
  - cbn. auto.
Qed.

Lemma make_compatible_run (rb silent : bool) (ni : list string)
  (x : string) :
  Forall (fun e => is_use e = false)
         (effects (make_compatible rb silent ni x))
  /\ match result (make_compatible rb silent ni x) with
     | inl IndexError => silent = true /\ ni = []
     | inl (RuntimeError _) => silent = false
     | inl (UseFailed _) => False
     | inr c0 =>
         (rb = true -> In c0 ni)
         /\ (in_list x ni = true \/ rb = false -> c0 = x)
         /\ (c0 = x \/ In c0 ni)
         /\ (effects (make_compatible rb silent ni x) = []
             \/ effects (make_compatible rb silent ni x)
                = [Warn (NoticeSetNonInteractive c0 x)])
     end.
Proof.
  unfold make_compatible.
  destruct rb; cbn [andb].
  - destruct (in_list x ni) eqn:E; cbn [negb].
    + cbn. split; [constructor|]. apply in_list_iff in E.
      repeat split; auto.
    + destruct silent; cbn [negb].
      * destruct ni as [|y ni]; cbn.
        -- split; [constructor | auto].
        -- split; [repeat constructor|].
           repeat split; auto.
           intros [H|H]; discriminate.
      * cbn. split; [constructor | reflexivity].
  - cbn. split; [constructor|].
    repeat split; auto. discriminate.
Qed.

Lemma set_if_needed_run (silent pyplot : bool) (mpl : Matplotlib)
  (curr c0 : string) :
  set_if_needed silent pyplot mpl curr c0 =
  if String.eqb c0 curr then ([], inr tt)
  else if pyplot then
    if silent then ([Warn NoticePyplotLoaded], inr tt)
    else ([], inl (RuntimeError PyplotAlreadyLoaded))
  else ([Use c0],
        if mpl.(use_accepts) c0 then inr tt else inl (UseFailed c0)).
Proof.
  unfold set_if_needed, use.
  destruct (String.eqb c0 curr); [reflexivity|].
  destruct pyplot; [|reflexivity]. destruct silent; reflexivity.
Qed.

Lemma not_use_in (b : string) (l : list Effect) :
  Forall (fun e => is_use e = false) l -> ~ In (Use b) l.
Proof.
  intros HF Hin. rewrite Forall_forall in HF.
  specialize (HF _ Hin). discriminate.
Qed.

(** A call to [matplotlib.use] can only come from the last block, after
    the others have returned. *)
Lemma use_comes_last (env : Env) (backend : option string)
  (batch : BatchArg) (silent : bool) (mpl : Matplotlib) (ri : bool)
  (b : string) :
  env.(matplotlib) = Some mpl ->
  check_interactive_backend env = inr ri ->
  In (Use b) (effects (set_matplotlib_backend env backend batch silent)) ->
  exists c c0,
    result (determine (batch_mode batch ri) (lower mpl.(get_backend))
              (map lower mpl.(non_interactive_bk)) backend) = inr c
    /\ result (make_compatible (batch_mode batch ri) silent
                 (map lower mpl.(non_interactive_bk)) (lower c)) = inr c0
    /\ b = c0
    /\ String.eqb c0 (lower mpl.(get_backend)) = false
    /\ env.(pyplot_loaded) = false
    /\ result (set_matplotlib_backend env backend batch silent)
       = if mpl.(use_accepts) c0 then inr tt else inl (UseFailed c0).
Proof.
  intros Hm Hc. rewrite (set_matplotlib_backend_blocks env backend batch
                           silent mpl ri Hm Hc).
  set (rb := batch_mode batch ri).
  set (curr := lower mpl.(get_backend)).
  set (ni := map lower mpl.(non_interactive_bk)).
  destruct (check_display_effects rb ri silent) as (Hno1 & _ & _).
  destruct (determine_run rb curr ni backend) as (Heff3 & _).
  rewrite effects_and_then, result_and_then.
  intros Hin. apply in_app_or in Hin. destruct Hin as [Hin|Hin];
    [exfalso; exact (not_use_in b _ Hno1 Hin)|].
  destruct (result (check_display rb ri silent)) as [e|[]];
    [contradiction|].
  rewrite effects_and_then in Hin. rewrite result_and_then.
  rewrite leave_interactive_run in Hin |- *.
  cbn [effects result fst snd] in Hin |- *.
  apply in_app_or in Hin. destruct Hin as [Hin|Hin].
  { destruct rb; cbn in Hin; [destruct Hin as [H|[]]; discriminate
                             | contradiction]. }
  rewrite effects_and_then in Hin. rewrite result_and_then.
  fold (effects (determine rb curr ni backend)) in Hin.
  rewrite Heff3 in Hin. cbn [app] in Hin.
  fold (result (determine rb curr ni backend)) in Hin |- *.
  destruct (result (determine rb curr ni backend)) as [e|c] eqn:E3;
    [contradiction|].
  destruct (make_compatible_run rb silent ni (lower c)) as (Hno4 & _).
  rewrite effects_and_then in Hin. rewrite result_and_then.
  apply in_app_or in Hin. destruct Hin as [Hin|Hin];
    [exfalso; exact (not_use_in b _ Hno4 Hin)|].
  destruct (result (make_compatible rb silent ni (lower c))) as [e|c0]
    eqn:E4; [contradiction|].
  rewrite set_if_needed_run in Hin |- *.
  exists c, c0. split; [reflexivity|]. split; [exact E4|].
  destruct (String.eqb c0 curr); [destruct Hin|].
  destruct env.(pyplot_loaded).
  - destruct silent; cbn in Hin; [destruct Hin as [H|[]]; discriminate
                                 | contradiction].
  - cbn in Hin. destruct Hin as [H|[]]. inversion H. auto.
Qed.

Lemma check_with_backend (env : Env) (b : string) :
  check_interactive_backend (with_backend env b)
  = check_interactive_backend env
  /\ (with_backend env b).(pyplot_loaded) = env.(pyplot_loaded)
  /\ forall mpl,
       env.(matplotlib) = Some mpl ->
       (with_backend env b).(matplotlib)
       = Some (mkMatplotlib b mpl.(non_interactive_bk) mpl.(use_accepts)).
Proof.
  unfold with_backend. destruct env.(matplotlib) as [mpl|] eqn:E.
  - repeat split. intros mpl' H. inversion H; subst. reflexivity.
  - repeat split. intros mpl' H. discriminate.
Qed.

Lemma backend_after_no_use (curr : string) (l rest : list Effect) :
  Forall (fun e => is_use e = false) l ->
  backend_after curr (l ++ rest) = backend_after curr rest.
Proof.
  induction 1 as [|e l He HF IH]; cbn [app]; [reflexivity|].
  destruct e; cbn in He; try discriminate; cbn [backend_after]; exact IH.
Qed.

(* ----------------------------------------------------------------- *)


Lemma use_needs_matplotlib (env : Env) (backend : option string)
  (batch : BatchArg) (silent : bool) (b : string) :
  In (Use b) (effects (set_matplotlib_backend env backend batch silent)) ->
  exists mpl ri,
    env.(matplotlib) = Some mpl
    /\ check_interactive_backend env = inr ri.
Proof.
  intros Hin.
  destruct env.(matplotlib) as [mpl|] eqn:Hm.
  2:{ unfold set_matplotlib_backend in Hin. rewrite Hm in Hin.
      destruct Hin. }
  destruct (check_interactive_backend env) as [e|ri] eqn:Hc.
  { unfold set_matplotlib_backend in Hin. rewrite Hm, Hc in Hin.
    destruct Hin. }
  eauto.
Qed.

Lemma compatible_is_lower_case (rb silent : bool) (l : list string)
  (c c0 : string) :
  result (make_compatible rb silent (map lower l) (lower c)) = inr c0 ->
  lower c0 = c0.
Proof.
  intros E4.
  pose proof (make_compatible_run rb silent (map lower l) (lower c))
    as [_ H].
  rewrite E4 in H. destruct H as (_ & _ & [H|H] & _).
  - rewrite H. apply lower_idem.
  - now apply lower_in_map with (l := l).
Qed.

(** X7. [check_interactive_backend] raises exactly when [DISPLAY] is a
    lone colon, where [display[1]] is out of range; it is then an
    [IndexError], in a notebook too.  Otherwise it returns true exactly
    when an IPython kernel is running or [DISPLAY] is a colon followed by
    a digit. *)
Theorem interactive_check_spec (env : Env) :
  match check_interactive_backend env with
  | inl e =>
      e = IndexError /\ env.(DISPLAY) = Some (String colon EmptyString)
  | inr b =>
      env.(DISPLAY) <> Some (String colon EmptyString)
      /\ (b = true <->
          in_ipynb env = true
          \/ exists c rest,
               env.(DISPLAY) = Some (String colon (String c rest))
               /\ isdigit c = true)
  end.
Proof.
  unfold check_interactive_backend, run_display.
  destruct env.(DISPLAY) as [[|a [|c rest]]|]; cbn [startswith_colon].
  - cbn [negb]. split; [discriminate|]. rewrite orb_false_r. split.
    + intros H. left. now destruct (in_ipynb env).
    + intros [H|(c & rest & H & _)]; [now rewrite H | discriminate].
  - destruct (Ascii.eqb a colon) eqn:E; cbn [negb].
    + apply Ascii.eqb_eq in E. subst a. cbn. auto.
    + split.
      * intros H. inversion H; subst. now rewrite Ascii.eqb_refl in E.
      * rewrite orb_false_r. split.
        -- intros H. left. now destruct (in_ipynb env).
        -- intros [H|(c & rest & H & _)]; [now rewrite H | discriminate].
  - destruct (Ascii.eqb a colon) eqn:E; cbn [negb].
    + apply Ascii.eqb_eq in E. subst a. cbn [String.get]. cbn.
      split; [discriminate|]. rewrite negb_involutive. split.
      * intros H. destruct (in_ipynb env); [now left|]. right.
        exists c, rest. split; [reflexivity|].
        cbn in H. now destruct (isdigit c).
      * intros [H|(c' & rest' & H & Hd)].
        -- now rewrite H.
        -- inversion H; subst. rewrite Hd.
           now destruct (in_ipynb env).
    + split; [discriminate|]. rewrite orb_false_r. split.
      * intros H. left. now destruct (in_ipynb env).
      * intros [H|(c' & rest' & H & _)]; [now rewrite H|].
        inversion H; subst. now rewrite Ascii.eqb_refl in E.
  - cbn [negb]. split; [discriminate|]. rewrite orb_false_r. split.
    + intros H. left. now destruct (in_ipynb env).
    + intros [H|(c & rest & H & _)]; [now rewrite H | discriminate].
Qed.

(** X8. With [DISPLAY] a lone colon, [set_matplotlib_backend] raises the
    [IndexError] of the display check before it has done anything,
    whatever its arguments, [silent] included; unless matplotlib cannot
    be imported, in which case the call returns at once. *)
Theorem lone_colon_display_raises (env : Env) (backend : option string)
  (batch : BatchArg) (silent : bool) :
  env.(DISPLAY) = Some (String colon EmptyString) ->
  set_matplotlib_backend env backend batch silent
  = match env.(matplotlib) with
    | None => ([], inr tt)
    | Some _ => ([], inl IndexError)
    end.
Proof.
  intros Hd. unfold set_matplotlib_backend.
  destruct env.(matplotlib) as [mpl|]; [|reflexivity].
  unfold check_interactive_backend. rewrite Hd. reflexivity.
Qed.

Lemma lone_colon_display_raises_witness :
  lone_colon.(DISPLAY) = Some (String colon EmptyString)
  /\ set_matplotlib_backend lone_colon None BatchNone true
     = ([], inl IndexError).
Proof.
  assert (H : lone_colon.(DISPLAY) = Some (String colon EmptyString))
    by reflexivity.
  split; [exact H|].
  exact (lone_colon_display_raises lone_colon None BatchNone true H).
Defined.

(** X9. [matplotlib.use(b)] is called only when matplotlib is there and
    the display check has returned, [matplotlib.pyplot] is not loaded
    yet, and [b] is not the current backend in lower case; [b] is in
    lower case itself; in batch mode [b] is one of the non-interactive
    backends.  The outcome of the call is then the outcome of
    [matplotlib.use(b)]: a normal return when matplotlib accepts [b],
    what [matplotlib.use] raises otherwise. *)
Theorem use_only_when_safe (env : Env) (backend : option string)
  (batch : BatchArg) (silent : bool) (b : string) :
  In (Use b) (effects (set_matplotlib_backend env backend batch silent)) ->
  exists mpl ri,
    env.(matplotlib) = Some mpl
    /\ check_interactive_backend env = inr ri
    /\ env.(pyplot_loaded) = false
    /\ b <> lower mpl.(get_backend)
    /\ lower b = b
    /\ (batch_mode batch ri = true ->
        In b (map lower mpl.(non_interactive_bk)))
    /\ result (set_matplotlib_backend env backend batch silent)
       = if mpl.(use_accepts) b then inr tt else inl (UseFailed b).
Proof.
  intros Hin.
  destruct env.(matplotlib) as [mpl|] eqn:Hm.
  2:{ unfold set_matplotlib_backend in Hin. rewrite Hm in Hin.
      destruct Hin. }
  destruct (check_interactive_backend env) as [e|ri] eqn:Hc.
  { unfold set_matplotlib_backend in Hin. rewrite Hm, Hc in Hin.
    destruct Hin. }
  destruct (use_comes_last env backend batch silent mpl ri b Hm Hc Hin)
    as (c & c0 & E3 & E4 & -> & Hneq & Hpy & Hres).
  exists mpl, ri. repeat split; auto.
  - intros Heq. rewrite Heq, String.eqb_refl in Hneq. discriminate.
  - pose proof (make_compatible_run (batch_mode batch ri) silent
                  (map lower mpl.(non_interactive_bk)) (lower c)) as [_ H].
    rewrite E4 in H. destruct H as (_ & _ & [H|H] & _).
    + rewrite H. apply lower_idem.
    + now apply lower_in_map with (l := mpl.(non_interactive_bk)).
  - intros Hrb.
    pose proof (make_compatible_run (batch_mode batch ri) silent
                  (map lower mpl.(non_interactive_bk)) (lower c)) as [_ H].
    rewrite E4 in H. now apply H.
Qed.

Lemma use_only_when_safe_witness :
  In (Use "agg") (effects (set_matplotlib_backend headless None BatchNone
                             true))
  /\ exists mpl ri,
       headless.(matplotlib) = Some mpl
       /\ check_interactive_backend headless = inr ri
       /\ headless.(pyplot_loaded) = false
       /\ "agg"%string <> lower mpl.(get_backend)
       /\ lower "agg" = "agg"%string
       /\ (batch_mode BatchNone ri = true ->
           In "agg"%string (map lower mpl.(non_interactive_bk)))
       /\ result (set_matplotlib_backend headless None BatchNone true)
          = if mpl.(use_accepts) "agg" then inr tt
            else inl (UseFailed "agg").
Proof.
  assert (H : In (Use "agg")
                (effects (set_matplotlib_backend headless None BatchNone
                            true)))
    by (right; left; reflexivity).
  split; [exact H|].
  exact (use_only_when_safe headless None BatchNone true "agg" H).
Defined.




(** X11. In batch mode, asked for by [batch=True] or settled on because
    no display was found, a call that returns without the warning that
    pyplot is already loaded has switched interactive mode off and
    leaves matplotlib on a non-interactive backend: the one it has just
    set, or the current one if that was the one to set. *)
Theorem batch_mode_ends_non_interactive (env : Env)
  (backend : option string) (batch : BatchArg) (silent : bool)
  (mpl : Matplotlib) (ri : bool) :
  env.(matplotlib) = Some mpl ->
  check_interactive_backend env = inr ri ->
  batch_mode batch ri = true ->
  result (set_matplotlib_backend env backend batch silent) = inr tt ->
  ~ In (Warn NoticePyplotLoaded)
       (effects (set_matplotlib_backend env backend batch silent)) ->
  In (Interactive false)
     (effects (set_matplotlib_backend env backend batch silent))
  /\ In (backend_after (lower mpl.(get_backend))
           (effects (set_matplotlib_backend env backend batch silent)))
        (map lower mpl.(non_interactive_bk)).
Proof.
  intros Hm Hc Hrb.
  rewrite (set_matplotlib_backend_blocks env backend batch silent mpl ri
             Hm Hc).
  rewrite Hrb.
  set (curr := lower mpl.(get_backend)).
  set (ni := map lower mpl.(non_interactive_bk)).
  destruct (check_display_effects true ri silent) as (_ & _ & H1).
  specialize (H1 eq_refl).
  destruct (determine_run true curr ni backend) as (Heff3 & _).
  intros Hret Hnowarn.
  rewrite effects_and_then in Hnowarn |- *.
  rewrite result_and_then in Hret.
  rewrite H1 in Hret, Hnowarn |- *.
  cbn [effects result fst snd app] in Hret, Hnowarn |- *.
  rewrite effects_and_then in Hnowarn |- *.
  rewrite result_and_then in Hret.
  rewrite leave_interactive_run in Hret, Hnowarn |- *.
  cbn [effects result fst snd app] in Hret, Hnowarn |- *.
  split; [now left|]. cbn [backend_after].
  rewrite effects_and_then in Hnowarn |- *.
  rewrite result_and_then in Hret.
  fold (effects (determine true curr ni backend)) in Hnowarn |- *.
  fold (result (determine true curr ni backend)) in Hnowarn, Hret |- *.
  rewrite Heff3 in Hnowarn |- *. cbn [app] in Hnowarn |- *.
  destruct (result (determine true curr ni backend)) as [e|c];
    [discriminate|].
  rewrite effects_and_then in Hnowarn |- *.
  rewrite result_and_then in Hret.
  destruct (make_compatible_run true silent ni (lower c)) as (Hno4 & H4).
  destruct (result (make_compatible true silent ni (lower c))) as [e|c0];
    [discriminate|].
  destruct H4 as (Hin & _ & _ & _). specialize (Hin eq_refl).
  rewrite backend_after_no_use by exact Hno4.
  rewrite set_if_needed_run in Hret, Hnowarn |- *.
  destruct (String.eqb c0 curr) eqn:Eq.
  - apply String.eqb_eq in Eq. subst c0. exact Hin.
  - destruct env.(pyplot_loaded).
    + destruct silent; [|discriminate].
      exfalso. apply Hnowarn. right. apply in_or_app. right. now left.
    + exact Hin.
Qed.

Lemma batch_mode_ends_non_interactive_witness :
  desktop.(matplotlib)
  = Some (mkMatplotlib "TkAgg" ["agg"; "cairo"; "pdf"; "pgf"; "ps"; "svg";
                                "template"]%string known)
  /\ check_interactive_backend desktop = inr true
  /\ batch_mode (BatchBool true) true = true
  /\ result (set_matplotlib_backend desktop (Some "Qt5Agg"%string)
               (BatchBool true) true) = inr tt
  /\ ~ In (Warn NoticePyplotLoaded)
          (effects (set_matplotlib_backend desktop (Some "Qt5Agg"%string)
                      (BatchBool true) true))
  /\ In (backend_after "tkagg"
           (effects (set_matplotlib_backend desktop (Some "Qt5Agg"%string)
                       (BatchBool true) true)))
        ["agg"; "cairo"; "pdf"; "pgf"; "ps"; "svg"; "template"]%string.
Proof.
  assert (H1 : desktop.(matplotlib)
               = Some (mkMatplotlib "TkAgg"
                         ["agg"; "cairo"; "pdf"; "pgf"; "ps"; "svg";
                          "template"]%string known)) by reflexivity.
  assert (H2 : check_interactive_backend desktop = inr true)
    by reflexivity.
  assert (H3 : batch_mode (BatchBool true) true = true) by reflexivity.
  assert (H4 : result (set_matplotlib_backend desktop
                         (Some "Qt5Agg"%string) (BatchBool true) true)
               = inr tt) by reflexivity.
  assert (H5 : ~ In (Warn NoticePyplotLoaded)
                    (effects (set_matplotlib_backend desktop
                                (Some "Qt5Agg"%string) (BatchBool true)
                                true))).
  { vm_compute. intros [H|[H|[H|[]]]]; discriminate. }
  repeat (split; [assumption|]).
  exact (proj2 (batch_mode_ends_non_interactive desktop
                  (Some "Qt5Agg"%string) (BatchBool true) true _ _
                  H1 H2 H3 H4 H5)).
Defined.

(** X12. Once a call has set a backend and matplotlib reports it as the
    current one, the same call again sets nothing: whatever else it
    logs or raises, it does not call [matplotlib.use] a second time. *)
Theorem second_call_sets_nothing (env : Env) (backend : option string)
  (batch : BatchArg) (silent : bool) (b : string) :
  In (Use b) (effects (set_matplotlib_backend env backend batch silent)) ->
  forall b',
    ~ In (Use b')
         (effects (set_matplotlib_backend (with_backend env b) backend
                     batch silent)).
Proof.
  intros Hin b' Hin'.
  destruct (use_needs_matplotlib env backend batch silent b Hin)
    as (mpl & ri & Hm & Hc).
  destruct (use_comes_last env backend batch silent mpl ri b Hm Hc Hin)
    as (c & c0 & E3 & E4 & <- & Hneq & _ & _).
  pose proof (compatible_is_lower_case _ _ _ _ _ E4) as Hlow.
  destruct (check_with_backend env b) as (Hc' & _ & Hm').
  specialize (Hm' mpl Hm). rewrite Hc in Hc'.
  destruct (use_comes_last (with_backend env b) backend batch silent _ ri b'
              Hm' Hc' Hin')
    as (c' & c0' & E3' & E4' & _ & Hneq' & _ & _).
  cbn [get_backend non_interactive_bk] in E3', E4', Hneq'.
  rewrite Hlow in E3', Hneq'.
  set (rb := batch_mode batch ri) in *.
  set (curr := lower mpl.(get_backend)) in *.
  set (ni := map lower mpl.(non_interactive_bk)) in *.
  assert (Hcurr : lower curr = curr) by apply lower_idem.
  pose proof (determine_run rb curr ni backend) as [_ D].
  pose proof (determine_run rb b ni backend) as [_ D'].
  rewrite E3 in D. rewrite E3' in D'.
  pose proof (make_compatible_run rb silent ni (lower c)) as [_ M].
  pose proof (make_compatible_run rb silent ni (lower c')) as [_ M'].
  rewrite E4 in M. rewrite E4' in M'.
  destruct M as (Mni & Msame & _ & _).
  destruct M' as (Mni' & Msame' & _ & _).
  assert (Hgoal : c0' = b).
  { destruct (falsy backend).
    - destruct (negb rb || in_list curr ni) eqn:Cond.
      + (* the current backend was the one to set: no call to use *)
        exfalso. subst c. rewrite Hcurr in Msame.
        assert (Hb : b = curr).
        { apply Msame. apply orb_true_iff in Cond.
          destruct Cond as [H|H]; [right; now destruct rb | now left]. }
        rewrite Hb, String.eqb_refl in Hneq. discriminate.
      + apply orb_false_iff in Cond. destruct Cond as [Hrb Hcur].
        apply negb_false_iff in Hrb.
        assert (Hc_low : lower c = c)
          by (apply lower_in_map with (l := mpl.(non_interactive_bk));
              exact D).
        rewrite Hc_low in Msame.
        assert (Hbc : b = c)
          by (apply Msame; left; now apply in_list_iff).
        assert (Hbni : in_list b ni = true)
          by (apply in_list_iff; rewrite Hbc; exact D).
        rewrite Hrb, Hbni in D'. cbn in D'. subst c'.
        rewrite Hlow in Msame'. apply Msame'. now left.
    - rewrite <- D in D'. subst c'.
      destruct (in_list (lower c) ni) eqn:Hx.
      + rewrite (Msame' (or_introl eq_refl)).
        now rewrite (Msame (or_introl eq_refl)).
      + destruct rb.
        * (* both runs fall back on the first non-interactive backend *)
          unfold make_compatible in E4, E4'. cbn [andb] in E4, E4'.
          rewrite Hx in E4, E4'. cbn [negb] in E4, E4'.
          rewrite E4 in E4'. now inversion E4'.
        * rewrite (Msame' (or_intror eq_refl)).
          now rewrite (Msame (or_intror eq_refl)). }
  rewrite Hgoal, String.eqb_refl in Hneq'. discriminate.
Qed.

Lemma second_call_sets_nothing_witness :
  In (Use "agg") (effects (set_matplotlib_backend headless None BatchNone
                             true))
  /\ forall b',
       ~ In (Use b')
            (effects (set_matplotlib_backend (with_backend headless "agg")
                        None BatchNone true)).
Proof.
  assert (H : In (Use "agg")
                (effects (set_matplotlib_backend headless None BatchNone
                            true)))
    by (right; left; reflexivity).
  split; [exact H|].
  exact (second_call_sets_nothing headless None BatchNone true "agg" H).
Defined.

(** X13. With [silent] false the call logs no warning: each obstacle
    that a silent call would log is raised instead, so a call that
    returns has met none. *)
Theorem loud_call_warns_nothing (env : Env) (backend : option string)
  (batch : BatchArg) (notice : Notice) :
  ~ In (Warn notice)
       (effects (set_matplotlib_backend env backend batch false)).
Proof.
  destruct env.(matplotlib) as [mpl|] eqn:Hm.
  2:{ unfold set_matplotlib_backend. rewrite Hm. intros []. }
  destruct (check_interactive_backend env) as [e|ri] eqn:Hc.
  { unfold set_matplotlib_backend. rewrite Hm, Hc. intros []. }
  rewrite (set_matplotlib_backend_blocks env backend batch false mpl ri
             Hm Hc).
  set (rb := batch_mode batch ri).
  set (curr := lower mpl.(get_backend)).
  set (ni := map lower mpl.(non_interactive_bk)).
  rewrite effects_and_then. intros Hin.
  apply in_app_or in Hin. destruct Hin as [Hin|Hin].
  { unfold check_display in Hin.
    destruct (negb rb && negb ri); destruct Hin. }
  destruct (result (check_display rb ri false)) as [e|[]];
    [destruct Hin|].
  rewrite effects_and_then, leave_interactive_run in Hin.
  cbn [effects result fst snd] in Hin.
  apply in_app_or in Hin. destruct Hin as [Hin|Hin].
  { destruct rb; cbn in Hin; [destruct Hin as [H|[]]; discriminate
                             | destruct Hin]. }
  rewrite effects_and_then in Hin.
  destruct (determine_run rb curr ni backend) as (Heff3 & _).
  fold (effects (determine rb curr ni backend)) in Hin.
  fold (result (determine rb curr ni backend)) in Hin.
  rewrite Heff3 in Hin. cbn [app] in Hin.
  destruct (result (determine rb curr ni backend)) as [e|c];
    [destruct Hin|].
  rewrite effects_and_then in Hin.
  apply in_app_or in Hin. destruct Hin as [Hin|Hin].
  { unfold make_compatible in Hin.
    destruct (rb && negb (in_list (lower c) ni)); destruct Hin. }
  destruct (result (make_compatible rb false ni (lower c))) as [e|c0];
    [destruct Hin|].
  rewrite set_if_needed_run in Hin.
  destruct (String.eqb c0 curr); [destruct Hin|].
  destruct env.(pyplot_loaded); cbn in Hin; [destruct Hin|].
  destruct Hin as [H|[]]. discriminate.
Qed.

End BackendFacts.

(* ================================================================= *)
(** ** The further facts of the splitter, on the sample *)

Lemma missing_candidate_raises_key_error_witness :
  Forall (fun c => exists hist,
            Dict.get Key_eq_dec (KStr c) data_single = Some hist)
         ["t:x"%string]
  /\ Dict.get Key_eq_dec (KStr "t:y") data_single = None
  /\ outcome (transform_on sample nested_splitter ["t:x"; "t:y"; "t:x"]%string
                data_single (store_of data_single))
     = inl (KeyError (KStr "t:y")).
Proof.
  assert (H1 : Forall (fun c => exists hist,
                         Dict.get Key_eq_dec (KStr c) data_single
                         = Some hist) ["t:x"%string]).
  { constructor; [|constructor]. exists (OHist hist_2d). reflexivity. }
  assert (H2 : Dict.get Key_eq_dec (KStr "t:y") data_single = None)
    by reflexivity.
  split; [exact H1|]. split; [exact H2|].
  destruct (missing_candidate_raises_key_error SampleHist sample
              nested_splitter data_single ["t:x"%string] ["t:x"%string]
              "t:y" H1 H2) as (tr1 & d1 & _ & Hon & _).
  change (["t:x"; "t:y"; "t:x"]%string)
    with (["t:x"%string] ++ "t:y"%string :: ["t:x"%string]).
  now rewrite Hon.
Defined.

Lemma repeated_candidate_is_harmless_witness :
  nested_splitter.(flatten_output) = false
  /\ outcome (transform_on sample nested_splitter
                ["t:x"; "u:x"; "t:x"]%string data_two_writers
                (store_of data_two_writers))
     = outcome (transform_on sample nested_splitter
                  ["t:x"; "u:x"]%string data_two_writers
                  (store_of data_two_writers)).
Proof.
  assert (H : nested_splitter.(flatten_output) = false) by reflexivity.
  split; [exact H|].
  exact (repeated_candidate_is_harmless SampleHist sample nested_splitter
           data_two_writers [] ["u:x"%string] [] "t:x"
           (store_of data_two_writers) H).
Defined.

Lemma conversion_keeps_the_keys_in_order_witness :
  NoDup (Dict.keys
           [group_entry nested_splitter
              ("x"%string,
               projection sample nested_splitter (OHist hist_2d) "t:x");
            group_entry nested_splitter
              ("y"%string,
               projection sample nested_splitter (OHist hist_2d_other)
                 "u:y")])
  /\ trace (transform_frames sample nested_splitter
              [KStr "x"; KStr "y"]
              [group_entry nested_splitter
                 ("x"%string,
                  projection sample nested_splitter (OHist hist_2d) "t:x");
               group_entry nested_splitter
                 ("y"%string,
                  projection sample nested_splitter (OHist hist_2d_other)
                    "u:y")])
     = [].
Proof.
  assert (H : NoDup (Dict.keys
                       [group_entry nested_splitter
                          ("x"%string,
                           projection sample nested_splitter
                             (OHist hist_2d) "t:x");
                        group_entry nested_splitter
                          ("y"%string,
                           projection sample nested_splitter
                             (OHist hist_2d_other) "u:y")])).
  { constructor; [|constructor; [|constructor]].
    - intros [E|[]]. discriminate.
    - intros []. }
  split; [exact H|].
  exact (proj1 (conversion_keeps_the_keys_in_order SampleHist sample
                  nested_splitter _ H)).
Defined.

Lemma flattened_merge_is_last_write_wins_witness :
  flat_splitter.(flatten_output) = true
  /\ Dict.get Key_eq_dec (KStr "cat:x:y") data_scenario
     = Some (OHist hist_3d)
  /\ splittable sample (OHist hist_3d) "cat:x:y"
  /\ Dict.mem Key_eq_dec (KStr (yname_of "cat:x:y"))
       [(KInt 0, @OHist SampleHist hist_1d)] = false
  /\ projection sample flat_splitter (OHist hist_3d) "cat:x:y" <> []
  /\ exists divided',
       outcome (transform_feature sample flat_splitter data_scenario
                  [(KInt 0, OHist hist_1d)] "cat:x:y") = inr divided'
       /\ Dict.get Key_eq_dec (KInt 0) divided'
          = Some (OHist (mkSample 2 false [(0, 5)]%Z)).
Proof.
  assert (H1 : flat_splitter.(flatten_output) = true) by reflexivity.
  assert (H2 : Dict.get Key_eq_dec (KStr "cat:x:y") data_scenario
               = Some (OHist hist_3d)) by reflexivity.
  assert (H3 : splittable sample (OHist hist_3d) "cat:x:y")
    by (split; reflexivity).
  assert (H4 : Dict.mem Key_eq_dec (KStr (yname_of "cat:x:y"))
                 [(KInt 0, @OHist SampleHist hist_1d)] = false)
    by reflexivity.
  assert (H5 : projection sample flat_splitter (OHist hist_3d) "cat:x:y"
               <> []) by (vm_compute; discriminate).
  repeat (split; [assumption|]).
  destruct (flattened_merge_is_last_write_wins SampleHist sample
              flat_splitter data_scenario [(KInt 0, OHist hist_1d)]
              "cat:x:y" (OHist hist_3d) H1 H2 H3 H4 H5)
    as (divided' & Hout & Hget).
  exists divided'. split; [exact Hout|].
  rewrite Hget. reflexivity.
Defined.

Lemma stored_values_are_indexed_tables_witness :
  transform sample nested_splitter (store_of data_single)
  = (events_of nested_splitter data_single,
     inr (store_after nested_splitter data_single))
  /\ exists out,
       Dict.get string_dec "split"%string
         (store_after nested_splitter data_single) = Some (ODict out)
       /\ Forall (fun kv => exists tbl,
                    snd kv = OFrame tbl
                    /\ index_name tbl = Some (KStr "date")) out.
Proof.
  assert (H : transform sample nested_splitter (store_of data_single)
              = (events_of nested_splitter data_single,
                 inr (store_after nested_splitter data_single)))
    by reflexivity.
  split; [exact H|].
  exact (stored_values_are_indexed_tables SampleHist sample nested_splitter
           _ _ _ H).
Defined.
